(** * OSRSFurnaceBot: a shallow embedding of [src/model/osrs/furnace_bot.py]

    The controller is single-threaded Python that talks to a game client.
    Its effects are modelled by a state-and-outcome monad over a [World]:
    a millisecond clock, a chronological trace of the host-visible actions,
    and a counter of the external calls made so far.  The answers of the
    external collaborators (object detector, hover text, image search,
    game-state client) and the time each external call takes are given by a
    [Host], indexed by that counter, so that every run of the embedding is a
    run of the Python code against some environment. *)

From Stdlib Require Import ZArith List String Ascii Bool Lia QArith DecimalString.
Import ListNotations.
Open Scope string_scope.
Open Scope list_scope.
Open Scope Z_scope.

(** String concatenation, as in an f-string; [++] is kept for lists. *)
Infix "+++" := String.append (right associativity, at level 60).

(** ** Data model *)

(** [utilities.color]: the marker and text colours the bot refers to. *)
Inductive Color := PINK | RED | GREEN | OFF_WHITE | OFF_ORANGE.

(** [class Item(NamedTuple)]. *)
Record Item := mkItem { name : string; id : Z }.

(** [class CraftItem]: the target item and its materials. *)
Record CraftItem := mkCraftItem { item : Item; materials : list Item }.

(** [utilities.api.item_ids]: the four identifiers the file imports.  The
    module is not part of the sources, so its constants are parameters. *)
Record ItemIds := mkItemIds {
  GOLD_AMULET_U : Z;
  SAPPHIRE_RING : Z;
  GOLD_BAR : Z;
  SAPPHIRE : Z
}.

(** [utilities.geometry.Rectangle]. *)
Record Rectangle := mkRectangle { left : Z; top : Z; width : Z; height : Z }.

(** A tagged object returned by the detector ([RuneLiteObject]); only its
    identity matters here. *)
Inductive RuneLiteObject := Obj (handle : nat).

(** The option fields of the bot that [main_loop] reads. *)
Record BotOptions := mkBotOptions {
  running_time : Z;                  (* minutes *)
  craft_item : option CraftItem      (* None until the options are saved *)
}.

(** One record of [api_m.get_inv()]: a dict with keys "index" and "id". *)
Record Slot := mkSlot { slot_index : Z; slot_id : Z }.

(** Where the pointer is sent: [X.random_point()] for a region [X]. *)
Inductive Region :=
| CpTab (i : Z)                      (* self.win.cp_tabs[i] *)
| InventorySlot (i : Z)              (* self.win.inventory_slots[i] *)
| ObjRegion (o : RuneLiteObject)     (* a tagged object *)
| RectRegion (r : Rectangle).        (* an explicit rectangle *)

(** Host-visible actions, in the order the controller performs them. *)
Inductive Event :=
| ELog (msg : string)                (* self.log_msg(msg) *)
| EMoveTo (r : Region)               (* self.mouse.move_to(r.random_point()) *)
| EClick                             (* self.mouse.click() *)
| ESleep (secs : Z)                  (* time.sleep(secs) *)
| EMoveCamera (deg : Z)              (* self.move_camera(deg) *)
| EProgress (p : Q)                  (* self.update_progress(p) *)
| ELogout                            (* self.logout() *)
| EStop.                             (* self.stop() *)

(** The environment.  Every answer is indexed by the number of external
    calls made before it; [latency k] is the time, in milliseconds, that
    the [k]-th external call takes. *)
Record Host := mkHost {
  nearest_tag : nat -> Color -> option RuneLiteObject;
  hover_text : nat -> string -> Color -> bool;
  inventory : nat -> list Slot;
  player_idle : nat -> bool;
  image_in_rect : nat -> string -> Rectangle -> Q -> option Rectangle;
  latency : nat -> N;
  game_view : Rectangle
}.

Record World := mkWorld {
  calls : nat;             (* external calls made so far *)
  now : Z;                 (* time.time(), in milliseconds *)
  trace : list Event       (* actions so far, oldest first *)
}.

Inductive Exn := ZeroDivisionError | AttributeError.

(** How a computation ends: with a value, by the host's [stop()], by a
    Python exception, or because the model's loop budget ran out. *)
Inductive Outcome (A : Type) :=
| Ret (a : A)
| Stopped
| Raised (e : Exn)
| OutOfFuel.
Arguments Ret {A} a.
Arguments Stopped {A}.
Arguments Raised {A} e.
Arguments OutOfFuel {A}.

Definition M (A : Type) := World -> Outcome A * World.

Definition ret {A} (a : A) : M A := fun w => (Ret a, w).

Definition bind {A B} (m : M A) (k : A -> M B) : M B :=
  fun w =>
    match m w with
    | (Ret a, w') => k a w'
    | (Stopped, w') => (Stopped, w')
    | (Raised e, w') => (Raised e, w')
    | (OutOfFuel, w') => (OutOfFuel, w')
    end.

Definition raise {A} (e : Exn) : M A := fun w => (Raised e, w).

Notation "x <- m ;; k" := (bind m (fun x => k))
  (at level 61, m at next level, right associativity).
Notation "m ;; k" := (bind m (fun _ => k))
  (at level 61, right associativity).

(** A value of the options dict handed to [save_options]: the slider
    gives an integer, the dropdown a string. *)
Inductive OptionValue := VInt (n : Z) | VStr (s : string).

(** The options dict: its keys in insertion order, each with its value;
    the keys of a dict are distinct, so the value paired with a key is
    [options[key]]. *)
Definition OptionsDict := list (string * OptionValue).

(** The attributes [OSRSFurnaceBot.__init__] sets and [save_options]
    writes.  ([self.bank] and [self.furnace] are set to [None] there and
    never read or written again.) *)
Record BotState := mkBotState {
  st_running_time : OptionValue;
  st_craft_item : option CraftItem;
  st_options_set : bool
}.

(** A call on [self.options_builder]. *)
Inductive OptionSpec :=
| SliderOption (key label : string) (lo hi : Z)
| DropdownOption (key label : string) (values : list string).


(** ** Python truthiness *)

Class Truthy (A : Type) := truthy : A -> bool.

#[export] Instance Truthy_bool : Truthy bool := fun b => b.
#[export] Instance Truthy_Z : Truthy Z := fun z => negb (z =? 0).
(** An object is truthy; Python's [None] is [None]. *)
#[export] Instance Truthy_object : Truthy RuneLiteObject := fun _ => true.
#[export] Instance Truthy_rectangle : Truthy Rectangle := fun _ => true.
(** A record of the snapshot is a non-empty dict. *)
#[export] Instance Truthy_slot : Truthy Slot := fun _ => true.
#[export] Instance Truthy_option {A} `{Truthy A} : Truthy (option A) :=
  fun o => match o with Some a => truthy a | None => false end.

(** ** String helpers *)

(** [str(n)] for an integer. *)
Definition str_of_Z (z : Z) : string := NilZero.string_of_int (Z.to_int z).

(** [str(x)] where [x] is an integer or [None]. *)
Definition str_of_option_Z (x : option Z) : string :=
  match x with Some z => str_of_Z z | None => "None" end.

(** [s.replace(' ', '_')]. *)
Fixpoint replace_space (s : string) : string :=
  match s with
  | EmptyString => EmptyString
  | String c r =>
      String (if Ascii.eqb c " "%char then "_"%char else c) (replace_space r)
  end.

(** [repr] of an [Item], as an f-string prints it (names without quotes). *)
Definition repr_Item (i : Item) : string :=
  "Item(name='" +++ name i +++ "', id=" +++ str_of_Z (id i) +++ ")".

(** ** Recipe catalog *)

Definition GOLD_BAR_NAME := "Gold bar".
Definition SAPPHIRE_NAME := "Sapphire".
Definition GOLD_AMULET_U_NAME := "Gold amulet (u)".
Definition SAPPHIRE_RING_NAME := "Sapphire ring".

(** ** Concrete clients and recipes, for the runs at the end *)

(** The item identifiers of the game. *)
Definition osrs_ids : ItemIds := mkItemIds 1673 1637 2357 1607.

Definition view : Rectangle := mkRectangle 0 0 512 334.

(** A client in which everything is found at once and the designated
    slot of the two-material recipe (index 12) holds a sapphire ring. *)
Definition ring_host : Host :=
  {| nearest_tag := fun _ _ => Some (Obj 0);
     hover_text := fun _ _ _ => true;
     inventory := fun _ => [mkSlot 12 1637];
     player_idle := fun _ => false;
     image_in_rect := fun _ _ r _ => Some r;
     latency := fun _ => 0%N;
     game_view := view |}.

(** The same client with the designated slot of the one-material recipe
    (index 26) holding a gold amulet. *)
Definition amulet_host : Host :=
  {| nearest_tag := fun _ _ => Some (Obj 0);
     hover_text := fun _ _ _ => true;
     inventory := fun _ => [mkSlot 26 1673];
     player_idle := fun _ => false;
     image_in_rect := fun _ _ r _ => Some r;
     latency := fun _ => 0%N;
     game_view := view |}.

(** A client that finds nothing and shows an empty inventory. *)
Definition blind_host : Host :=
  {| nearest_tag := fun _ _ => None;
     hover_text := fun _ _ _ => false;
     inventory := fun _ => [];
     player_idle := fun _ => true;
     image_in_rect := fun _ _ _ _ => None;
     latency := fun _ => 0%N;
     game_view := view |}.

(** A client that finds nothing either, and takes two and a half seconds
    to answer each call. *)
Definition slow_host : Host :=
  {| nearest_tag := fun _ _ => None;
     hover_text := fun _ _ _ => false;
     inventory := fun _ => [];
     player_idle := fun _ => true;
     image_in_rect := fun _ _ _ _ => None;
     latency := fun _ => 2500%N;
     game_view := view |}.

(** A client that shows every tagged object but never the hover text. *)
Definition mute_host : Host :=
  {| nearest_tag := fun _ _ => Some (Obj 0);
     hover_text := fun _ _ _ => false;
     inventory := fun _ => [mkSlot 12 2357];
     player_idle := fun _ => true;
     image_in_rect := fun _ _ r _ => Some r;
     latency := fun _ => 0%N;
     game_view := view |}.

Definition w_init : World := mkWorld 0 0 [].

Definition sapphire_ring : CraftItem :=
  mkCraftItem (mkItem SAPPHIRE_RING_NAME 1637)
    [mkItem GOLD_BAR_NAME 2357; mkItem SAPPHIRE_NAME 1607].
Definition gold_amulet : CraftItem :=
  mkCraftItem (mkItem GOLD_AMULET_U_NAME 1673) [mkItem GOLD_BAR_NAME 2357].

(** Thirty minutes of sapphire rings. *)
Definition ring_options : BotOptions := mkBotOptions 30 (Some sapphire_ring).


(** What the options form hands over for thirty minutes of sapphire
    rings. *)
Definition ring_form : OptionsDict :=
  [("running_time", VInt 30); ("craft_item", VStr SAPPHIRE_RING_NAME)].

(** A dict with a misspelt key between two good ones. *)
Definition typo_form : OptionsDict :=
  [("running_time", VInt 45); ("craft_itm", VStr SAPPHIRE_RING_NAME);
   ("craft_item", VStr SAPPHIRE_RING_NAME)].

(** The attributes of a bot whose options were never saved. *)
Definition no_options : BotOptions := mkBotOptions 30 None.

(** Sapphire rings with no time to make them. *)
Definition no_time_options : BotOptions := mkBotOptions 0 (Some sapphire_ring).


Section Bot.

Variable ids : ItemIds.
Variable host : Host.

(** [CraftItem.__init_materials]. *)
Definition __init_materials (i : Item) : list Item :=
  if id i =? GOLD_AMULET_U ids then
    [mkItem GOLD_BAR_NAME (GOLD_BAR ids)]
  else if id i =? SAPPHIRE_RING ids then
    [mkItem GOLD_BAR_NAME (GOLD_BAR ids); mkItem SAPPHIRE_NAME (SAPPHIRE ids)]
  else [].

(** [CraftItem.__init__]. *)
Definition new_CraftItem (i : Item) : CraftItem :=
  mkCraftItem i (__init_materials i).

(** [OSRSFurnaceBot.__init_craft_item]. *)
Definition __init_craft_item (item_name : string) : option CraftItem :=
  if String.eqb item_name GOLD_AMULET_U_NAME then
    Some (new_CraftItem (mkItem GOLD_AMULET_U_NAME (GOLD_AMULET_U ids)))
  else if String.eqb item_name SAPPHIRE_RING_NAME then
    Some (new_CraftItem (mkItem SAPPHIRE_RING_NAME (SAPPHIRE_RING ids)))
  else None.

(** ** Primitive effects *)

(** An external call: it takes [latency] milliseconds and is counted. *)
Definition tick (w : World) : World :=
  mkWorld (S (calls w)) (now w + Z.of_N (latency host (calls w))) (trace w).

Definition emit (e : Event) (w : World) : World :=
  mkWorld (calls w) (now w) (trace w ++ [e]).

(** An external action that leaves [e] in the trace. *)
Definition act (e : Event) : M unit := fun w => (Ret tt, emit e (tick w)).

(** An external query answered by the host. *)
Definition ask {A} (q : nat -> A) : M A := fun w => (Ret (q (calls w)), tick w).

Definition log_msg (msg : string) : M unit := act (ELog msg).
Definition mouse_move_to (r : Region) : M unit := act (EMoveTo r).
Definition mouse_click : M unit := act EClick.
Definition move_camera (deg : Z) : M unit := act (EMoveCamera deg).
Definition update_progress (p : Q) : M unit := act (EProgress p).
Definition logout : M unit := act ELogout.

(** [time.time()]: reads the clock. *)
Definition time : M Z := fun w => (Ret (now w), w).

(** [time.sleep(secs)]: the clock advances by [secs] seconds. *)
Definition sleep (secs : Z) : M unit :=
  fun w => (Ret tt, emit (ESleep secs) (mkWorld (calls w) (now w + 1000 * secs) (trace w))).

(** Modelled from the spec: [stop()] of the host bot class, which is not
    part of the sources.  The docstring of [main_loop] says "If you need to
    halt the bot from within this function, call self.stop()", no fatal
    site of [main_loop] has a [return] or [break] after [__logout], and the
    spec has a fatal condition end in "immediate logout and controller
    stop": the call is recorded and the controller's run ends there. *)
Definition stop : M unit := fun w => (Stopped, emit EStop (tick w)).

Definition get_nearest_tag (c : Color) : M (option RuneLiteObject) :=
  ask (fun k => nearest_tag host k c).
Definition mouseover_text (contains : string) (c : Color) : M bool :=
  ask (fun k => hover_text host k contains c).
Definition get_inv : M (list Slot) := ask (inventory host).
Definition get_is_player_idle : M bool := ask (player_idle host).
Definition search_img_in_rect (img : string) (r : Rectangle) (confidence : Q)
  : M (option Rectangle) :=
  ask (fun k => image_in_rect host k img r confidence).

(** ** [__logout] *)
Definition __logout (msg : string) : M unit :=
  log_msg msg ;; logout ;; stop.

(** ** [__retry]

    [fuel] bounds the number of loop iterations of the model; the Python
    loop has no such bound. *)
Section Retry.
Context {A : Type} `{Truthy A}.
Variable action_func : M A.
Variable on_retry_func : option (M unit).
Variable retry_seconds : Z.

(** [if on_retry_func: on_retry_func()]. *)
Definition recover : M unit :=
  match on_retry_func with
  | Some f => f
  | None => ret tt
  end.

Fixpoint retry_loop (fuel : nat) (start_time : Z) : M (option A) :=
  t <- time ;;
  if t - start_time <? 1000 * retry_seconds then
    match fuel with
    | O => fun w => (OutOfFuel, w)
    | S fuel' =>
        r <- action_func ;;
        if truthy r then ret (Some r)
        else
          recover ;;
          sleep 1 ;;
          retry_loop fuel' start_time
    end
  else ret None.

Definition __retry (fuel : nat) : M (option A) :=
  start_time <- time ;;
  retry_loop fuel start_time.

(** One unsuccessful pass of the loop, begun inside the time window: the
    probe answers something falsy; [on_retry_func], if one was given, is
    called once in the world the probe left, and nothing is called if none
    was given; the driver sleeps one second. *)
Definition failed_pass (start_time : Z) (w w' : World) : Prop :=
  now w - start_time < 1000 * retry_seconds /\
  exists r w1 w2,
    action_func w = (Ret r, w1) /\ truthy r = false /\
    match on_retry_func with
    | Some f => f w1 = (Ret tt, w2)
    | None => w2 = w1
    end /\
    w' = snd (sleep 1 w2).

(** [failed_passes start k w w']: [k] unsuccessful passes lead from [w]
    to [w']. *)
Inductive failed_passes (start_time : Z) : nat -> World -> World -> Prop :=
| passes_O w : failed_passes start_time O w w
| passes_S k w w' w'' :
    failed_pass start_time w w' ->
    failed_passes start_time k w' w'' ->
    failed_passes start_time (S k) w w''.
End Retry.

(** A callback that always returns and does not move the clock backwards. *)
Definition steady {A} (m : M A) : Prop :=
  forall w, exists a w', m w = (Ret a, w') /\ now w <= now w'.

(** The probe and the [on_retry_func] call of one pass take at most [d]
    milliseconds together. *)
Definition callbacks_within {A} (probe : M A) (on_retry_func : option (M unit)) (d : Z)
  : Prop :=
  forall w r w1 w2,
    probe w = (Ret r, w1) ->
    match on_retry_func with
    | Some f => f w1 = (Ret tt, w2)
    | None => w2 = w1
    end ->
    now w2 - now w <= d.

(** The default [retry_seconds: int = 15]. *)
Definition DEFAULT_RETRY_SECONDS : Z := 15.

(** ** Action primitives *)

(** [__click_on_furnace]. *)
Definition __click_on_furnace (fuel : nat) : M bool :=
  let retry_find_furnace :=
    log_msg "Furnace obj not found... Trying again." ;; move_camera 90 in
  r <- __retry (get_nearest_tag PINK) (Some retry_find_furnace)
         DEFAULT_RETRY_SECONDS fuel ;;
  match r with
  | Some (Some furnace_obj) =>
      let find_furnace :=
        mouse_move_to (ObjRegion furnace_obj) ;;
        mouseover_text "Smelt" OFF_WHITE in
      v <- __retry find_furnace None DEFAULT_RETRY_SECONDS fuel ;;
      if truthy v then mouse_click ;; ret true
      else log_msg "Could not find furnace." ;; ret false
  | _ => ret false
  end.

(** [__click_on_bank]. *)
Definition __click_on_bank (fuel : nat) : M bool :=
  let retry_find_bank :=
    log_msg "Bank obj not found... Trying again." ;; move_camera 90 in
  r <- __retry (get_nearest_tag RED) (Some retry_find_bank)
         DEFAULT_RETRY_SECONDS fuel ;;
  match r with
  | Some (Some bank_obj) =>
      let find_bank :=
        mouse_move_to (ObjRegion bank_obj) ;;
        mouseover_text "Bank" OFF_WHITE in
      v <- __retry find_bank None DEFAULT_RETRY_SECONDS fuel ;;
      if truthy v then mouse_click ;; ret true
      else log_msg "Could not find bank." ;; ret false
  | _ => ret false
  end.

(** [__exit_bank]. *)
Definition __exit_bank : M unit :=
  let close_bank_btn :=
    mkRectangle (left (game_view host) + 485) (top (game_view host) + 10) 20 20 in
  mouse_move_to (RectRegion close_bank_btn) ;;
  mouse_click.

(** [__begin_crafting]. *)
Definition __begin_crafting (fuel : nat) (i : Item) : M bool :=
  log_msg ("Crafting " +++ repr_Item i +++ ".") ;;
  craft_btn <- get_nearest_tag GREEN ;;
  match craft_btn with
  | Some btn =>
      let click_craft_btn :=
        mouse_move_to (ObjRegion btn) ;;
        mouseover_text (name i) OFF_ORANGE in
      v <- __retry click_craft_btn None DEFAULT_RETRY_SECONDS fuel ;;
      if truthy v then mouse_click ;; ret true
      else
        log_msg ("Failed to click craft button for " +++ repr_Item i +++ ".") ;;
        ret false
  | None =>
      log_msg ("Craft button for " +++ repr_Item i +++ " not found.") ;;
      ret false
  end.

(** ** [main_loop] *)

(** [available_slots], after the [use_mould] adjustment. *)
Definition available_slots (use_mould : bool) : Z :=
  let available_slots := 28 in
  if use_mould then available_slots - 1 else available_slots.

(** [max_craftable = available_slots // len(materials)], for a non-empty
    materials list; Python's [//] on a positive divisor is [Z.div]. *)
Definition max_craftable (use_mould : bool) (ci : CraftItem) : Z :=
  available_slots use_mould / Z.of_nat (List.length (materials ci)).

(** [last_craft_item_index = max_craftable - 1]. *)
Definition last_craft_item_index (use_mould : bool) (ci : CraftItem) : Z :=
  max_craftable use_mould ci - 1.

(** [x == y] where [x] is an integer or [None]. *)
Definition py_eq (x : option Z) (y : Z) : bool :=
  match x with Some v => v =? y | None => false end.

(** The phase tags, as the strings the code compares. *)
Definition PRE_CRAFT := "pre-craft".
Definition CRAFT := "craft".
Definition POST_CRAFT := "post-craft".
Definition BANK := "bank".

(** The [for material in self.craft_item.materials] loop of the bank phase.
    The image path is kept relative to [imsearch.BOT_IMAGES]. *)
Fixpoint withdraw (ms : list Item) : M unit :=
  match ms with
  | [] => ret tt
  | material :: rest =>
      let file_name := replace_space (name material) +++ ".png" in
      let mat_img := "items/" +++ file_name in
      log_msg ("Searching for " +++ name material +++ "... (" +++ file_name +++ ")") ;;
      mat <- search_img_in_rect mat_img (game_view host) (1 # 2) ;;
      (match mat with
       | Some m => mouse_move_to (RectRegion m) ;; mouse_click ;; sleep 1
       | None => __logout ("Material " +++ name material +++ " not found.")
       end) ;;
      withdraw rest
  end.

(** How the branch of an iteration is left: by [continue], or by falling
    through to the sleep and the progress report. *)
Inductive Flow := Continue (state : string) | Fallthrough (state : string).

Section Loop.
Variable fuel : nat.              (* budget of the inner retry loops *)
Variable ci : CraftItem.          (* self.craft_item *)
Variable last_index : Z.          (* last_craft_item_index *)
Variable start_time : Z.          (* milliseconds *)
Variable end_time : Z.            (* seconds *)

(** The [if state == ...] chain of the loop body. *)
Definition branches (state : string) (last_item_id : option Z) : M Flow :=
  if String.eqb state PRE_CRAFT then
    if py_eq last_item_id (id (item ci)) then
      log_msg "Crafting complete. Moving to bank." ;;
      ret (Continue POST_CRAFT)
    else
      f <- __click_on_furnace fuel ;;
      (if negb f then __logout "Furnace not found." else ret tt) ;;
      c <- __begin_crafting fuel (item ci) ;;
      ret (Fallthrough (if c then CRAFT else state))
  else if String.eqb state CRAFT then
    if py_eq last_item_id (id (item ci)) then
      log_msg "Crafting complete. Moving to bank." ;;
      ret (Fallthrough POST_CRAFT)
    else
      log_msg "Crafting..." ;;
      idle <- get_is_player_idle ;;
      if idle then log_msg "Player is idle." ;; ret (Fallthrough PRE_CRAFT)
      else ret (Fallthrough state)
  else if String.eqb state POST_CRAFT then
    b <- __click_on_bank fuel ;;
    (if negb b then __logout "Bank not found." else ret tt) ;;
    log_msg "Moving to bank..." ;;
    sleep 10 ;;
    ret (Fallthrough BANK)
  else if String.eqb state BANK then
    mouse_move_to (InventorySlot 4) ;;
    mouse_click ;;
    sleep 1 ;;
    withdraw (materials ci) ;;
    __exit_bank ;;
    ret (Fallthrough PRE_CRAFT)
  else ret (Fallthrough state).

(** [(time.time() - start_time) / end_time], as an exact fraction. *)
Definition progress_fraction (t : Z) : Q :=
  ((t - start_time) # 1000) / inject_Z end_time.

(** The end of the loop body: the flat sleep and the progress report. *)
Definition report : M unit :=
  sleep 1 ;;
  t <- time ;;
  if end_time =? 0 then raise ZeroDivisionError
  else update_progress (progress_fraction t).

(** The snapshot lookup at the head of the loop body:
    [next((item for item in inv if item["index"] == idx), None)] and
    [last_item["id"] if last_item else None]. *)
Definition lookup_last_item_id (inv : list Slot) : option Z :=
  let last_item := find (fun it => slot_index it =? last_index) inv in
  if truthy last_item then option_map slot_id last_item else None.

(** One pass through the body of the [while] loop; the value is the
    phase the next pass starts from. *)
Definition iteration (state : string) : M string :=
  log_msg ("State: " +++ state) ;;
  inv <- get_inv ;;
  let last_item_id := lookup_last_item_id inv in
  (if truthy last_item_id
   then log_msg ("Last item id: " +++ str_of_option_Z last_item_id)
   else __logout "Last item not found. idk what to do. logging out.") ;;
  fl <- branches state last_item_id ;;
  match fl with
  | Continue state' => ret state'
  | Fallthrough state' => report ;; ret state'
  end.

(** [while time.time() - start_time < end_time: ...]; [n] bounds the
    number of passes of the model. *)
Fixpoint main_while (n : nat) (state : string) : M string :=
  t <- time ;;
  if t - start_time <? 1000 * end_time then
    match n with
    | O => fun w => (OutOfFuel, w)
    | S n' => state' <- iteration state ;; main_while n' state'
    end
  else ret state.
End Loop.

Variable self : BotOptions.

(** [main_loop].  [use_mould] is the local constant [True]. *)
Definition main_loop_body (fuel : nat) : M string :=
  log_msg "Selecting inventory..." ;;
  mouse_move_to (CpTab 3) ;;
  mouse_click ;;
  let state := PRE_CRAFT in
  let use_mould := true in
  match craft_item self with
  | None => raise AttributeError
  | Some ci =>
      if Z.of_nat (List.length (materials ci)) =? 0 then raise ZeroDivisionError
      else
        log_msg ("Max craftable: " +++ str_of_Z (max_craftable use_mould ci)) ;;
        start_time <- time ;;
        let end_time := running_time self * 60 in
        main_while fuel ci (last_craft_item_index use_mould ci)
          start_time end_time fuel state
  end.

Definition main_loop (fuel : nat) : M unit :=
  main_loop_body fuel ;;
  update_progress 1 ;;
  __logout "Finished." ;;
  stop.

(** ** [__init__], [create_options], [save_options] *)

(** [OSRSFurnaceBot.__init__]: the option attributes of a new bot. *)
Definition __init__ : BotState := mkBotState (VInt 30) None false.

(** [create_options]: the calls made on the options builder, in order. *)
Definition create_options : list OptionSpec :=
  [ SliderOption "running_time" "How long to run (minutes)?" 30 720;
    DropdownOption "craft_item" "Craft Item" [GOLD_AMULET_U_NAME; SAPPHIRE_RING_NAME] ].

(** [__init_craft_item(options[option])]: a value that is not a string
    equals neither name. *)
Definition craft_item_of_value (v : OptionValue) : option CraftItem :=
  match v with
  | VStr item_name => __init_craft_item item_name
  | VInt _ => None
  end.

(** [f"{self.running_time}"]. *)
Definition str_of_value (v : OptionValue) : string :=
  match v with
  | VInt n => str_of_Z n
  | VStr s => s
  end.

(** The [for option in options] loop of [save_options]: the bot as the
    loop leaves it, and the key at which the loop is left by its [else]
    branch, if it is. *)
Fixpoint save_options_loop (options : OptionsDict) (bot : BotState)
  : BotState * option string :=
  match options with
  | [] => (bot, None)
  | (option, value) :: rest =>
      if String.eqb option "running_time" then
        save_options_loop rest
          (mkBotState value (st_craft_item bot) (st_options_set bot))
      else if String.eqb option "craft_item" then
        save_options_loop rest
          (mkBotState (st_running_time bot) (craft_item_of_value value)
             (st_options_set bot))
      else (bot, Some option)
  end.

(** The line [save_options] prints for the developer. *)
Definition DEVELOPER_HINT :=
  "Developer: ensure that the option keys are correct, and that options are being unpacked correctly.".

(** What a call of [save_options] leaves: how it ended, the bot's
    attributes, the lines printed to standard output, and the world. *)
Record Saved := mkSaved {
  saved_outcome : Outcome unit;
  saved_bot : BotState;
  saved_stdout : list string;
  saved_world : World
}.

(** [save_options]. *)
Definition save_options (options : OptionsDict) (bot : BotState) (w : World) : Saved :=
  match save_options_loop options bot with
  | (bot1, Some option) =>
      let w1 := snd (log_msg ("Unknown option: " +++ option) w) in
      mkSaved (Ret tt)
        (mkBotState (st_running_time bot1) (st_craft_item bot1) false)
        [DEVELOPER_HINT] w1
  | (bot1, None) =>
      let w1 :=
        snd (log_msg ("Running time: " +++ str_of_value (st_running_time bot1)
                      +++ " minutes.") w) in
      match st_craft_item bot1 with
      | None => mkSaved (Raised AttributeError) bot1 [] w1
      | Some ci =>
          let w2 := snd (log_msg ("Crafting item: " +++ repr_Item (item ci) +++ ".") w1) in
          let w3 := snd (log_msg "Options set successfully." w2) in
          mkSaved (Ret tt)
            (mkBotState (st_running_time bot1) (st_craft_item bot1) true)
            [] w3
      end
  end.

(** [options[key]], or [None] when the dict has no such key. *)
Definition dict_get (key : string) (options : OptionsDict) : option OptionValue :=
  option_map snd (find (fun e => String.eqb (fst e) key) options).

(** The keys [save_options] knows. *)
Definition known_key (key : string) : Prop :=
  key = "running_time" \/ key = "craft_item".


(** The attributes [main_loop] reads, when the running time is a number. *)
Definition options_view (bot : BotState) : option BotOptions :=
  match st_running_time bot with
  | VInt n => Some (mkBotOptions n (st_craft_item bot))
  | VStr _ => None
  end.


(** * Properties *)

(** ** Vocabulary for traces *)

Definition is_click (e : Event) : bool :=
  match e with EClick => true | _ => false end.
Definition is_logout (e : Event) : bool :=
  match e with ELogout => true | _ => false end.
Definition is_stop (e : Event) : bool :=
  match e with EStop => true | _ => false end.

(** Number of events of a kind in a list of events. *)
Definition count (p : Event -> bool) (evs : list Event) : nat :=
  List.length (filter p evs).

(** Neither a logout nor a stop. *)
Definition calm (e : Event) : Prop := is_logout e = false /\ is_stop e = false.

(** Calm and not a click. *)
Definition idle_ev (e : Event) : Prop := calm e /\ is_click e = false.

(** What the fatal handler leaves in the trace. *)
Definition fatal_events (msg : string) : list Event :=
  [ELog msg; ELogout; EStop].

(** [quiet ok m]: [m] always returns a value, never moves the clock
    backwards, and only adds events satisfying [ok] to the trace. *)
Definition quiet (ok : Event -> Prop) {A} (m : M A) : Prop :=
  forall w, exists a w',
    m w = (Ret a, w') /\ now w <= now w' /\
    exists evs, trace w' = trace w ++ evs /\ Forall ok evs.

(** [tame ok m]: whatever way [m] ends, the events it added satisfy [ok];
    a run that returns does not move the clock backwards; a run ended by
    [stop()] ends in the fatal handler: its final world is the one the
    handler [__logout(msg)] leaves, nothing having run after it. *)
Definition tame (ok : Event -> Prop) {A} (m : M A) : Prop :=
  forall w,
    match m w with
    | (Ret _, w') =>
        now w <= now w' /\ exists evs, trace w' = trace w ++ evs /\ Forall ok evs
    | (Stopped, w') =>
        exists w0 msg evs,
          w' = snd (__logout msg w0) /\
          trace w0 = trace w ++ evs /\ Forall ok evs
    | (_, w') => exists evs, trace w' = trace w ++ evs /\ Forall ok evs
    end.

(** [m] returns a boolean, always; it clicks exactly once, as its last
    action, when the boolean is true, and not at all when it is false. *)
Definition clicks_iff_true (m : M bool) : Prop :=
  forall w, exists (b : bool) w' evs,
    m w = (Ret b, w') /\ now w <= now w' /\ trace w' = trace w ++ evs /\
    if b then exists pre, evs = pre ++ [EClick] /\ Forall idle_ev pre
    else Forall idle_ev evs.

(** [verified_click text c m w]: run from [w], [m] returns a boolean.  A run
    that returns false has not clicked.  A run that returns true has
    clicked once, and its last three calls are: the pointer is sent to an
    object, the client is asked whether the hover text [text] in colour [c]
    is shown and answers yes, the click.  [w1] is the world before those
    three calls; the hover question is call number [S (calls w1)]. *)
Definition verified_click (text : string) (c : Color) (m : M bool) (w : World) : Prop :=
  exists (b : bool) w' evs,
    m w = (Ret b, w') /\ trace w' = trace w ++ evs /\
    count is_click evs = (if b then 1 else 0)%nat /\
    (b = true ->
     exists obj w1 pre,
       trace w1 = trace w ++ pre /\ count is_click pre = O /\
       evs = pre ++ [EMoveTo (ObjRegion obj); EClick] /\
       hover_text host (S (calls w1)) text c = true /\
       w' = emit EClick (tick (tick (emit (EMoveTo (ObjRegion obj)) (tick w1))))).

(** The four phase tags. *)
Definition valid_phase (s : string) : Prop :=
  s = PRE_CRAFT \/ s = CRAFT \/ s = POST_CRAFT \/ s = BANK.

(** The phase a branch leaves in [state]. *)
Definition flow_state (fl : Flow) : string :=
  match fl with Continue s => s | Fallthrough s => s end.

(** [reaches ... state0 w0 state w]: the loop, entered with phase [state0]
    in world [w0], is at the head of a pass with phase [state] in world
    [w]. *)
Inductive reaches (fuel : nat) (ci : CraftItem) (last_index start_time end_time : Z)
    (state0 : string) (w0 : World) : string -> World -> Prop :=
| reaches_start : reaches fuel ci last_index start_time end_time state0 w0 state0 w0
| reaches_pass state w state' w' :
    reaches fuel ci last_index start_time end_time state0 w0 state w ->
    now w - start_time < 1000 * end_time ->
    iteration fuel ci last_index start_time end_time state w = (Ret state', w') ->
    reaches fuel ci last_index start_time end_time state0 w0 state' w'.

(** The bank branch begins by clicking inventory slot [slot] and waiting
    one second; whatever else it does comes after. *)
Definition deposit_clicks_slot (slot : Z) (fuel : nat) (ci : CraftItem)
    (lid : option Z) (w : World) : Prop :=
  exists rest,
    trace (snd (branches fuel ci BANK lid w)) =
    trace w ++ [EMoveTo (InventorySlot slot); EClick; ESleep 1] ++ rest.


(** Every value [m] can return satisfies [P]. *)
Definition yields {A} (P : A -> Prop) (m : M A) : Prop :=
  forall w a w', m w = (Ret a, w') -> P a.


(** [sure m]: [m] either returns, not having moved the clock backwards, or
    is ended by [stop()]; it raises nothing and needs no more fuel. *)
Definition sure {A} (m : M A) : Prop :=
  forall w,
    match m w with
    | (Ret _, w') => now w <= now w'
    | (Stopped, _) => True
    | _ => False
    end.


(** [within d m]: however [m] ends, the clock has advanced by at most [d]
    milliseconds. *)
Definition within (d : Z) {A} (m : M A) : Prop :=
  forall w, now (snd (m w)) <= now w + d.

(** [instant m]: [m] always returns and leaves the clock where it was. *)
Definition instant {A} (m : M A) : Prop :=
  forall w, exists a w', m w = (Ret a, w') /\ now w' = now w.

(** The time one pass of the loop body can take at most, in milliseconds,
    when the client answers at once: 46 seconds for the pre-craft pass
    (two 15-second searches for the furnace, one for the craft button, the
    flat second), one second more than a material each for the bank pass. *)
Definition pass_bound (ci : CraftItem) : Z :=
  1000 * Z.max 46 (2 + Z.of_nat (List.length (materials ci))).

(** An entry of the options dict is one the form built from [spec] can
    produce: the key of the option, with a slider position or a dropdown
    choice. *)
Definition allowed_by (spec : OptionSpec) (entry : string * OptionValue) : Prop :=
  match spec with
  | SliderOption key _ lo hi =>
      fst entry = key /\ exists n, snd entry = VInt n /\ lo <= n <= hi
  | DropdownOption key _ values =>
      fst entry = key /\ exists s, snd entry = VStr s /\ In s values
  end.



(** What withdrawing one material leaves in the trace when its image is
    found at [r]: the search is logged, the pointer goes to the match, one
    click, one second of sleep. *)
Definition withdrawal_events (mr : Item * Rectangle) : list Event :=
  let (material, r) := mr in
  [ELog ("Searching for " +++ name material +++ "... ("
         +++ (replace_space (name material) +++ ".png") +++ ")");
   EMoveTo (RectRegion r); EClick; ESleep 1].


(** [plain evs m]: [m] always returns, does not move the clock backwards,
    and adds exactly the events [evs] to the trace. *)
Definition plain (evs : list Event) {A} (m : M A) : Prop :=
  forall w, exists a w',
    m w = (Ret a, w') /\ now w <= now w' /\ trace w' = trace w ++ evs.

(** [k] times the events [evs], one after the other. *)
Definition rounds (evs : list Event) (k : nat) : list Event :=
  List.concat (repeat evs k).


(** The trace of a primitive that searches for an object and then
    confirms it by its hover text: [k1] unsuccessful looks, each followed
    by the log line [not_found], a turn of the camera and a sleep; then,
    when the object [obj] was detected, [k2] unsuccessful hovers over it,
    each followed by a sleep, and at last the hover and click of success or
    the log line [could_not] of failure. *)
Definition searches_then_confirms (prim : M bool) (not_found could_not : string)
    (w : World) : Prop :=
  exists k1,
    (k1 <= 15)%nat /\
    let search := rounds [ELog not_found; EMoveCamera 90; ESleep 1] k1 in
    (fst (prim w) = Ret false /\ trace (snd (prim w)) = trace w ++ search) \/
    exists obj k2,
      (k2 <= 15)%nat /\
      let hover := rounds [EMoveTo (ObjRegion obj); ESleep 1] k2 in
      (fst (prim w) = Ret true /\
       trace (snd (prim w)) =
         trace w ++ search ++ hover ++ [EMoveTo (ObjRegion obj); EClick]) \/
      (fst (prim w) = Ret false /\
       trace (snd (prim w)) = trace w ++ search ++ hover ++ [ELog could_not]).

(** ** Monad facts *)

Lemma bind_Ret_inv {A B} (m : M A) (k : A -> M B) w b w' :
  bind m k w = (Ret b, w') ->
  exists a w1, m w = (Ret a, w1) /\ k a w1 = (Ret b, w').
Proof.
  unfold bind. destruct (m w) as [[a| |e|] w1]; intros E; try discriminate.
  exists a, w1. split; [reflexivity | exact E].
Qed.

Lemma bind_Ret {A B} (m : M A) (k : A -> M B) w a w1 :
  m w = (Ret a, w1) -> bind m k w = k a w1.
Proof. intros E. unfold bind. rewrite E. reflexivity. Qed.

Lemma bind_Stopped {A B} (m : M A) (k : A -> M B) w w1 :
  m w = (Stopped, w1) -> bind m k w = (Stopped, w1).
Proof. intros E. unfold bind. rewrite E. reflexivity. Qed.

Lemma bind_assoc {A B C} (m : M A) (k : A -> M B) (h : B -> M C) w :
  bind (bind m k) h w = bind m (fun a => bind (k a) h) w.
Proof. unfold bind. destruct (m w) as [[a| |e|] w1]; reflexivity. Qed.

Lemma bind_ext {A B} (m : M A) (k k' : A -> M B) w :
  (forall a w1, k a w1 = k' a w1) -> bind m k w = bind m k' w.
Proof. intros E. unfold bind. destruct (m w) as [[a| |e|] w1]; auto. Qed.

(** The fatal handler never returns: what follows it is not run. *)
Lemma logout_run msg w :
  __logout msg w =
  (Stopped, emit EStop (tick (emit ELogout (tick (emit (ELog msg) (tick w)))))).
Proof. reflexivity. Qed.

Lemma logout_trace msg w :
  trace (snd (__logout msg w)) = trace w ++ fatal_events msg.
Proof. cbn. rewrite <- !app_assoc. reflexivity. Qed.

Lemma logout_bind {B} msg (k : unit -> M B) w :
  bind (__logout msg) k w = (Stopped, snd (__logout msg w)).
Proof. reflexivity. Qed.

(** ** Quiet computations *)

Section Quiet.
Variable ok : Event -> Prop.

Lemma quiet_ret {A} (a : A) : quiet ok (ret a).
Proof.
  intros w. exists a, w. repeat split; [lia|].
  exists []. rewrite app_nil_r. split; [reflexivity | constructor].
Qed.

Lemma quiet_bind {A B} (m : M A) (k : A -> M B) :
  quiet ok m -> (forall a, quiet ok (k a)) -> quiet ok (bind m k).
Proof.
  intros Hm Hk w.
  destruct (Hm w) as (a & w1 & E1 & T1 & evs1 & Tr1 & F1).
  destruct (Hk a w1) as (b & w2 & E2 & T2 & evs2 & Tr2 & F2).
  exists b, w2. rewrite (bind_Ret _ _ _ _ _ E1). repeat split; [exact E2 | lia |].
  exists (evs1 ++ evs2). rewrite Tr2, Tr1, app_assoc. split; [reflexivity|].
  apply Forall_app; split; assumption.
Qed.

Lemma quiet_act e : ok e -> quiet ok (act e).
Proof.
  intros He w. eexists _, _. split; [reflexivity|]. cbn. split; [lia|].
  exists [e]. split; [reflexivity | repeat constructor; exact He].
Qed.

Lemma quiet_ask {A} (q : nat -> A) : quiet ok (ask q).
Proof.
  intros w. eexists _, _. split; [reflexivity|]. cbn. split; [lia|].
  exists []. rewrite app_nil_r. split; [reflexivity | constructor].
Qed.

Lemma quiet_time : quiet ok time.
Proof.
  intros w. eexists _, _. split; [reflexivity|]. cbn. split; [lia|].
  exists []. rewrite app_nil_r. split; [reflexivity | constructor].
Qed.

Lemma quiet_sleep secs : 0 <= secs -> ok (ESleep secs) -> quiet ok (sleep secs).
Proof.
  intros Hs He w. eexists _, _. split; [reflexivity|]. cbn -[Z.mul].
  split; [lia|].
  exists [ESleep secs]. split; [reflexivity | repeat constructor; exact He].
Qed.
End Quiet.

(** ** The retry driver *)

Section RetryFacts.
Context {A : Type} `{Truthy A}.
Variable probe : M A.
Variable onf : option (M unit).
Variable T : Z.

(** What [recover] does, case by case. *)
Lemma recover_run w1 w2 :
  match onf with
  | Some f => f w1 = (Ret tt, w2)
  | None => w2 = w1
  end <-> recover onf w1 = (Ret tt, w2).
Proof.
  unfold recover. destruct onf as [f|]; [reflexivity|].
  unfold ret. split; [intros ->; reflexivity | intros E; inversion E; reflexivity].
Qed.

Lemma recover_steady :
  (forall f, onf = Some f -> steady f) -> steady (recover onf).
Proof.
  intros Hs. unfold recover. destruct onf as [f|]; [apply Hs; reflexivity|].
  intros w. exists tt, w. split; [reflexivity | lia].
Qed.

Lemma retry_loop_eq fuel start w :
  retry_loop probe onf T fuel start w =
  if now w - start <? 1000 * T then
    match fuel with
    | O => (OutOfFuel, w)
    | S fuel' =>
        (r <- probe ;;
         if truthy r then ret (Some r)
         else recover onf ;; sleep 1 ;; retry_loop probe onf T fuel' start) w
    end
  else (Ret None, w).
Proof.
  destruct fuel; cbn -[Z.mul]; destruct (now w - start <? 1000 * T); reflexivity.
Qed.

Lemma retry_eq fuel w :
  __retry probe onf T fuel w = retry_loop probe onf T fuel (now w) w.
Proof. reflexivity. Qed.

(** With monotone, always-returning callbacks, [retry_seconds] passes
    are enough: every failed pass sleeps one second. *)
Lemma retry_loop_quiet ok :
  quiet ok probe -> quiet ok (recover onf) -> ok (ESleep 1) ->
  forall fuel start w,
    1000 * T - (now w - start) <= 1000 * Z.of_nat fuel ->
    exists r w',
      retry_loop probe onf T fuel start w = (Ret r, w') /\ now w <= now w' /\
      exists evs, trace w' = trace w ++ evs /\ Forall ok evs.
Proof.
  intros Hp Hr Hs fuel. induction fuel as [|fuel IH]; intros start w Hf;
    rewrite retry_loop_eq; destruct (now w - start <? 1000 * T) eqn:Ec.
  - apply Z.ltb_lt in Ec. lia.
  - exists None, w. repeat split; [lia|]. exists []. rewrite app_nil_r.
    split; [reflexivity | constructor].
  - apply Z.ltb_lt in Ec.
    destruct (Hp w) as (r & w1 & E1 & T1 & evs1 & Tr1 & F1).
    rewrite (bind_Ret _ _ _ _ _ E1).
    destruct (truthy r).
    + exists (Some r), w1. repeat split; [lia|]. exists evs1. split; assumption.
    + destruct (Hr w1) as ([] & w2 & E2 & T2 & evs2 & Tr2 & F2).
      rewrite (bind_Ret _ _ _ _ _ E2).
      set (w3 := snd (sleep 1 w2)).
      assert (E3 : sleep 1 w2 = (Ret tt, w3)) by reflexivity.
      rewrite (bind_Ret _ _ _ _ _ E3).
      assert (N3 : now w3 = now w2 + 1000) by (cbn; lia).
      assert (Tr3 : trace w3 = trace w2 ++ [ESleep 1]) by reflexivity.
      destruct (IH start w3) as (r' & w' & E' & T' & evs' & Tr' & F'); [lia|].
      exists r', w'. repeat split; [exact E' | lia |].
      exists (evs1 ++ evs2 ++ [ESleep 1] ++ evs').
      rewrite Tr', Tr3, Tr2, Tr1, <- !app_assoc. split; [reflexivity|].
      repeat (apply Forall_app; split); try assumption.
      repeat constructor; exact Hs.
  - exists None, w. repeat split; [lia|]. exists []. rewrite app_nil_r.
    split; [reflexivity | constructor].
Qed.

Lemma retry_quiet ok fuel :
  quiet ok probe -> quiet ok (recover onf) -> ok (ESleep 1) ->
  T <= Z.of_nat fuel ->
  quiet ok (__retry probe onf T fuel).
Proof.
  intros Hp Hr Hs Hf w. rewrite retry_eq.
  apply retry_loop_quiet; try assumption. lia.
Qed.
(** The driver after [k] unsuccessful passes is the driver at the world
    those passes lead to. *)
Lemma retry_loop_passes start k w wk :
  failed_passes probe onf T start k w wk ->
  forall fuel,
    retry_loop probe onf T (k + fuel) start w =
    retry_loop probe onf T fuel start wk.
Proof.
  induction 1 as [w | k w w' w'' [Hin (r & w1 & w2 & E1 & Hr & E2 & ->)] _ IH];
    intros fuel; [reflexivity|].
  apply recover_run in E2.
  cbn [Nat.add]. rewrite retry_loop_eq.
  apply Z.ltb_lt in Hin. rewrite Hin.
  rewrite (bind_Ret _ _ _ _ _ E1), Hr, (bind_Ret _ _ _ _ _ E2).
  cbn [bind sleep]. apply IH.
Qed.

Lemma retry_succeeds k w wk r w' fuel :
  failed_passes probe onf T (now w) k w wk ->
  now wk - now w < 1000 * T ->
  probe wk = (Ret r, w') -> truthy r = true ->
  (k < fuel)%nat ->
  __retry probe onf T fuel w = (Ret (Some r), w').
Proof.
  intros Hk Hin E Ht Hf. rewrite retry_eq.
  replace fuel with (k + S (fuel - S k))%nat by lia.
  rewrite (retry_loop_passes _ _ _ _ Hk), retry_loop_eq.
  apply Z.ltb_lt in Hin. rewrite Hin, (bind_Ret _ _ _ _ _ E), Ht. reflexivity.
Qed.

Lemma retry_times_out k w wk fuel :
  failed_passes probe onf T (now w) k w wk ->
  1000 * T <= now wk - now w ->
  (k <= fuel)%nat ->
  __retry probe onf T fuel w = (Ret None, wk).
Proof.
  intros Hk Hout Hf. rewrite retry_eq.
  replace fuel with (k + (fuel - k))%nat by lia.
  rewrite (retry_loop_passes _ _ _ _ Hk), retry_loop_eq.
  apply Z.ltb_ge in Hout. rewrite Hout. reflexivity.
Qed.

(** Each unsuccessful pass takes at least its one-second sleep. *)
Lemma failed_pass_elapsed start w w' :
  steady probe -> steady (recover onf) ->
  failed_pass probe onf T start w w' -> now w + 1000 <= now w'.
Proof.
  intros Sp Sr [_ (r & w1 & w2 & E1 & _ & E2 & ->)].
  apply recover_run in E2.
  destruct (Sp w) as (a & x & Ex & L1).
  assert (x = w1) by congruence. subst x.
  destruct (Sr w1) as (b & y & Ey & L2).
  assert (y = w2) by congruence. subst y.
  cbn. lia.
Qed.

(** ... and at most that second plus what its callbacks take. *)
Lemma failed_pass_bound start w w' d :
  callbacks_within probe onf d ->
  failed_pass probe onf T start w w' -> now w' <= now w + 1000 + d.
Proof.
  intros Hd [_ (r & w1 & w2 & E1 & _ & E2 & ->)].
  specialize (Hd _ _ _ _ E1 E2). cbn. lia.
Qed.

(** The passes end at the first check at or after the deadline. *)
Lemma failed_passes_bound start d k w wk :
  callbacks_within probe onf d -> 0 <= d ->
  failed_passes probe onf T start k w wk ->
  now w - start < 1000 * T + 1000 + d ->
  now wk - start < 1000 * T + 1000 + d.
Proof.
  intros Hd Hd0. induction 1 as [w | k w w' w'' Hp _ IH]; intros Hw; [exact Hw|].
  apply IH. pose proof (failed_pass_bound _ _ _ _ Hd Hp) as Hb.
  destruct Hp as [Hin _]. lia.
Qed.

(** With steady callbacks the driver always comes to an end, after at
    most [retry_seconds] unsuccessful passes. *)
Lemma retry_loop_ends start :
  steady probe -> steady (recover onf) ->
  forall n w,
    1000 * T - (now w - start) <= 1000 * Z.of_nat n ->
    exists k wk,
      (k <= n)%nat /\ failed_passes probe onf T start k w wk /\
      (1000 * T <= now wk - start \/
       now wk - start < 1000 * T /\
       exists r w', probe wk = (Ret r, w') /\ truthy r = true).
Proof.
  intros Sp Sr n. induction n as [|n IH]; intros w Hn.
  - exists O, w. split; [lia|]. split; [constructor|]. left. lia.
  - destruct (Z_lt_ge_dec (now w - start) (1000 * T)) as [Hin|Hout].
    2:{ exists O, w. split; [lia|]. split; [constructor|]. left. lia. }
    destruct (Sp w) as (r & w1 & E1 & L1).
    destruct (truthy r) eqn:Ht.
    { exists O, w. split; [lia|]. split; [constructor|]. right.
      split; [exact Hin|]. exists r, w1. split; assumption. }
    destruct (Sr w1) as ([] & w2 & E2 & L2).
    assert (Hp : failed_pass probe onf T start w (snd (sleep 1 w2))).
    { split; [exact Hin|]. exists r, w1, w2.
      split; [exact E1|]. split; [exact Ht|]. split; [|reflexivity].
      apply recover_run, E2. }
    destruct (IH (snd (sleep 1 w2))) as (k & wk & Hk & Hps & Hend).
    { cbn -[Z.mul Z.of_nat]. lia. }
    exists (S k), wk. split; [lia|]. split; [|exact Hend].
    econstructor; eassumption.
Qed.

Lemma failed_passes_elapsed start k w wk :
  steady probe -> steady (recover onf) ->
  failed_passes probe onf T start k w wk ->
  now w + 1000 * Z.of_nat k <= now wk.
Proof.
  intros Sp Sr. induction 1 as [w | k w w' w'' Hp _ IH]; [cbn; lia|].
  pose proof (failed_pass_elapsed _ _ _ Sp Sr Hp). lia.
Qed.

(** C5, as the code has it.  The retry driver [__retry], for any probe and
    any [on_retry_func] that return and do not move the clock backwards,
    and any timeout [T] (seconds).  The run is some number [k] of
    unsuccessful passes -- each a falsy probe answer, then one call of
    [on_retry_func] if one was given, then a one-second sleep -- followed
    by one of two ends.  Either the probe answers something truthy inside
    the time window, and the driver returns exactly that answer in the
    world the probe left: nothing runs after the successful call.  Or the
    window is over, and the driver returns None, without an exception, no
    earlier than [T] seconds after it started.  How late it can be depends
    on the callbacks: if the probe and [on_retry_func] of a pass take at
    most [d] milliseconds, it is less than [d] plus one poll interval after
    the deadline, so within one poll interval only for callbacks that take
    no time. *)
Theorem retry_driver_contract (fuel : nat) (w : World) :
  steady probe -> (forall f, onf = Some f -> steady f) ->
  T <= Z.of_nat fuel ->
  exists k wk,
    failed_passes probe onf T (now w) k w wk /\
    Z.of_nat k <= Z.max 0 T /\
    ((exists r w',
        now wk - now w < 1000 * T /\
        probe wk = (Ret r, w') /\ truthy r = true /\
        __retry probe onf T fuel w = (Ret (Some r), w'))
     \/
     (__retry probe onf T fuel w = (Ret None, wk) /\
      1000 * T <= now wk - now w /\
      (forall d,
         callbacks_within probe onf d -> 0 <= d -> 0 <= T ->
         now wk - now w < 1000 * T + 1000 + d))).
Proof.
  intros Sp Sf Hf.
  pose proof (recover_steady Sf) as Sr.
  destruct (retry_loop_ends (now w) Sp Sr (Z.to_nat T) w) as (k & wk & Hk & Hps & Hend).
  { lia. }
  pose proof (failed_passes_elapsed _ _ _ _ Sp Sr Hps) as Hel.
  exists k, wk. split; [exact Hps|]. split; [lia|].
  destruct Hend as [Hout | (Hin & r & w' & E & Ht)].
  - right. split; [|split].
    + apply (retry_times_out k); [exact Hps | exact Hout | lia].
    + exact Hout.
    + intros d Hd Hd0 HT.
      apply (failed_passes_bound _ d k w wk); try assumption. lia.
  - left. exists r, w'. repeat split; try assumption.
    apply (retry_succeeds k w wk); try assumption. lia.
Qed.

End RetryFacts.

(** ** The action primitives *)

Lemma count_app p (xs ys : list Event) :
  count p (xs ++ ys) = (count p xs + count p ys)%nat.
Proof. unfold count. rewrite filter_app, length_app. reflexivity. Qed.

Lemma count_idle_click evs : Forall idle_ev evs -> count is_click evs = O.
Proof.
  induction 1 as [|e evs [_ He] _ IH]; [reflexivity|].
  unfold count in *. cbn. rewrite He. exact IH.
Qed.

Lemma count_calm_logout evs : Forall calm evs -> count is_logout evs = O.
Proof.
  induction 1 as [|e evs [He _] _ IH]; [reflexivity|].
  unfold count in *. cbn. rewrite He. exact IH.
Qed.

Lemma count_calm_stop evs : Forall calm evs -> count is_stop evs = O.
Proof.
  induction 1 as [|e evs [_ He] _ IH]; [reflexivity|].
  unfold count in *. cbn. rewrite He. exact IH.
Qed.

Lemma idle_ev_calm evs : Forall idle_ev evs -> Forall calm evs.
Proof. apply Forall_impl. intros e [Hc _]. exact Hc. Qed.

Lemma clicks_bind {A} (m : M A) (k : A -> M bool) :
  quiet idle_ev m -> (forall a, clicks_iff_true (k a)) ->
  clicks_iff_true (bind m k).
Proof.
  intros Hm Hk w.
  destruct (Hm w) as (a & w1 & E1 & T1 & evs1 & Tr1 & F1).
  destruct (Hk a w1) as (b & w2 & evs2 & E2 & T2 & Tr2 & Hb).
  exists b, w2, (evs1 ++ evs2). rewrite (bind_Ret _ _ _ _ _ E1).
  repeat split; [exact E2 | lia | rewrite Tr2, Tr1, app_assoc; reflexivity |].
  destruct b.
  - destruct Hb as (pre & -> & Fp). exists (evs1 ++ pre).
    rewrite app_assoc. split; [reflexivity|]. apply Forall_app; split; assumption.
  - apply Forall_app; split; assumption.
Qed.

Lemma clicks_ret_false : clicks_iff_true (ret false).
Proof.
  intros w. exists false, w, []. rewrite app_nil_r.
  repeat split; [lia | constructor].
Qed.

Lemma clicks_log_false msg : clicks_iff_true (log_msg msg ;; ret false).
Proof.
  intros w. eexists false, _, [ELog msg]. split; [reflexivity|]. cbn.
  repeat split; [lia|]. repeat constructor.
Qed.

Lemma clicks_click_true : clicks_iff_true (mouse_click ;; ret true).
Proof.
  intros w. eexists true, _, [EClick]. split; [reflexivity|]. cbn.
  repeat split; [lia|]. exists []. split; [reflexivity | constructor].
Qed.

Ltac quiet_tac :=
  repeat first
    [ apply quiet_ret | apply quiet_ask | apply quiet_time
    | apply quiet_act; repeat split; reflexivity
    | apply quiet_sleep; [lia | repeat split; reflexivity]
    | apply quiet_bind; [|intros ?] ].

(** The hover-and-verify probe of the three primitives. *)
Lemma quiet_hover ok o text c :
  ok (EMoveTo (ObjRegion o)) ->
  quiet ok (mouse_move_to (ObjRegion o) ;; mouseover_text text c).
Proof.
  intros Ho. apply quiet_bind; [apply quiet_act; exact Ho|].
  intros _. apply quiet_ask.
Qed.

(** The common end of the three primitives: verify the hover text by
    retrying, click on success, log on failure. *)
Lemma clicks_confirm fuel o text c msg :
  DEFAULT_RETRY_SECONDS <= Z.of_nat fuel ->
  clicks_iff_true
    (v <- __retry (mouse_move_to (ObjRegion o) ;; mouseover_text text c) None
            DEFAULT_RETRY_SECONDS fuel ;;
     if truthy v then mouse_click ;; ret true
     else log_msg msg ;; ret false).
Proof.
  intros Hf. apply clicks_bind.
  - apply retry_quiet; [| | |exact Hf].
    + apply quiet_hover. repeat split; reflexivity.
    + apply quiet_ret.
    + repeat split; reflexivity.
  - intros v. destruct (truthy v).
    + apply clicks_click_true.
    + apply clicks_log_false.
Qed.

Lemma quiet_find_tag fuel c msg :
  DEFAULT_RETRY_SECONDS <= Z.of_nat fuel ->
  quiet idle_ev
    (__retry (get_nearest_tag c) (Some (log_msg msg ;; move_camera 90))
       DEFAULT_RETRY_SECONDS fuel).
Proof.
  intros Hf. apply retry_quiet; [| | |exact Hf].
  - apply quiet_ask.
  - cbn [recover]. quiet_tac.
  - repeat split; reflexivity.
Qed.

Lemma click_on_furnace_clicks fuel :
  DEFAULT_RETRY_SECONDS <= Z.of_nat fuel -> clicks_iff_true (__click_on_furnace fuel).
Proof.
  intros Hf. unfold __click_on_furnace. apply clicks_bind.
  - apply quiet_find_tag, Hf.
  - intros [[o|]|]; try apply clicks_ret_false. apply clicks_confirm, Hf.
Qed.

Lemma click_on_bank_clicks fuel :
  DEFAULT_RETRY_SECONDS <= Z.of_nat fuel -> clicks_iff_true (__click_on_bank fuel).
Proof.
  intros Hf. unfold __click_on_bank. apply clicks_bind.
  - apply quiet_find_tag, Hf.
  - intros [[o|]|]; try apply clicks_ret_false. apply clicks_confirm, Hf.
Qed.

Lemma begin_crafting_clicks fuel i :
  DEFAULT_RETRY_SECONDS <= Z.of_nat fuel -> clicks_iff_true (__begin_crafting fuel i).
Proof.
  intros Hf. unfold __begin_crafting. apply clicks_bind.
  - apply quiet_act. repeat split; reflexivity.
  - intros _. apply clicks_bind; [apply quiet_ask|].
    intros [btn|]; [apply clicks_confirm, Hf | apply clicks_log_false].
Qed.

(** ** Tame computations *)

Section Tame.
Variable ok : Event -> Prop.

Lemma quiet_tame {A} (m : M A) : quiet ok m -> tame ok m.
Proof.
  intros Hm w. destruct (Hm w) as (a & w' & E & T' & evs & Tr & F).
  rewrite E. split; [exact T'|]. exists evs. split; assumption.
Qed.

Lemma tame_bind {A B} (m : M A) (k : A -> M B) :
  tame ok m -> (forall a, tame ok (k a)) -> tame ok (bind m k).
Proof.
  intros Hm Hk w. specialize (Hm w). unfold bind.
  destruct (m w) as [[a| |e|] w1]; try exact Hm.
  destruct Hm as (T1 & evs1 & Tr1 & F1).
  specialize (Hk a w1). destruct (k a w1) as [[b| |e|] w2].
  - destruct Hk as (T2 & evs2 & Tr2 & F2). split; [lia|].
    exists (evs1 ++ evs2). rewrite Tr2, Tr1, app_assoc. split; [reflexivity|].
    apply Forall_app; split; assumption.
  - destruct Hk as (w0 & msg & evs2 & E & Tr2 & F2).
    exists w0, msg, (evs1 ++ evs2). split; [exact E|].
    rewrite Tr2, Tr1, app_assoc. split; [reflexivity|].
    apply Forall_app; split; assumption.
  - destruct Hk as (evs2 & Tr2 & F2).
    exists (evs1 ++ evs2). rewrite Tr2, Tr1, app_assoc. split; [reflexivity|].
    apply Forall_app; split; assumption.
  - destruct Hk as (evs2 & Tr2 & F2).
    exists (evs1 ++ evs2). rewrite Tr2, Tr1, app_assoc. split; [reflexivity|].
    apply Forall_app; split; assumption.
Qed.

Lemma tame_ret {A} (a : A) : tame ok (ret a).
Proof. apply quiet_tame, quiet_ret. Qed.

Lemma tame_raise {A} e : tame ok (@raise A e).
Proof.
  intros w. exists []. rewrite app_nil_r. split; [reflexivity | constructor].
Qed.

Lemma tame_out_of_fuel {A} : tame ok (fun w => (@OutOfFuel A, w)).
Proof.
  intros w. exists []. rewrite app_nil_r. split; [reflexivity | constructor].
Qed.

(** The fatal handler, whatever is written after it. *)
Lemma tame_logout_then {B} msg (k : unit -> M B) :
  tame ok (bind (__logout msg) k).
Proof.
  intros w. rewrite logout_bind. exists w, msg, [].
  rewrite app_nil_r. repeat split. constructor.
Qed.

Lemma tame_logout msg : tame ok (__logout msg).
Proof.
  intros w. rewrite logout_run. exists w, msg, [].
  rewrite app_nil_r. repeat split. constructor.
Qed.

Lemma tame_retry_loop {A} `{Truthy A} (probe : M A) onf T :
  tame ok probe -> tame ok (recover onf) -> ok (ESleep 1) ->
  forall fuel start, tame ok (retry_loop probe onf T fuel start).
Proof.
  intros Hp Hr Hs fuel. induction fuel as [|fuel IH]; intros start.
  - cbn [retry_loop]. apply tame_bind; [apply quiet_tame, quiet_time|].
    intros t. destruct (_ <? _); [apply tame_out_of_fuel | apply tame_ret].
  - cbn [retry_loop]. apply tame_bind; [apply quiet_tame, quiet_time|].
    intros t. destruct (_ <? _); [|apply tame_ret].
    apply tame_bind; [exact Hp|]. intros r.
    destruct (truthy r); [apply tame_ret|].
    apply tame_bind; [exact Hr|]. intros _.
    apply tame_bind; [|intros _; apply IH].
    apply quiet_tame, quiet_sleep; [lia | exact Hs].
Qed.

Lemma tame_retry {A} `{Truthy A} (probe : M A) onf T fuel :
  tame ok probe -> tame ok (recover onf) -> ok (ESleep 1) ->
  tame ok (__retry probe onf T fuel).
Proof.
  intros Hp Hr Hs. unfold __retry.
  apply tame_bind; [apply quiet_tame, quiet_time|].
  intros t. apply tame_retry_loop; assumption.
Qed.
End Tame.

Create HintDb tame.

Ltac tame_tac :=
  repeat first
    [ solve [auto with tame]
    | apply tame_logout_then
    | apply tame_retry; [| |repeat split; reflexivity]
    | apply tame_ret | apply tame_raise | apply tame_logout
    | apply tame_out_of_fuel
    | apply quiet_tame; solve [quiet_tac]
    | match goal with
      | |- tame _ (match ?x with _ => _ end) => destruct x
      end
    | apply tame_bind; [|intros ?]
    | progress cbn [recover] ].

Lemma click_on_furnace_tame fuel : tame calm (__click_on_furnace fuel).
Proof. unfold __click_on_furnace. tame_tac. Qed.

Lemma click_on_bank_tame fuel : tame calm (__click_on_bank fuel).
Proof. unfold __click_on_bank. tame_tac. Qed.

Lemma begin_crafting_tame fuel i : tame calm (__begin_crafting fuel i).
Proof. unfold __begin_crafting. tame_tac. Qed.

Lemma withdraw_tame ms : tame calm (withdraw ms).
Proof.
  induction ms as [|material rest IH]; cbn [withdraw]; tame_tac.
Qed.

Lemma exit_bank_tame : tame calm __exit_bank.
Proof. unfold __exit_bank. tame_tac. Qed.

#[local] Hint Resolve click_on_furnace_tame click_on_bank_tame
  begin_crafting_tame withdraw_tame exit_bank_tame : tame.

(** ** The loop body and the loop *)

Section LoopFacts.
Variable fuel : nat.
Variable ci : CraftItem.
Variable last_index : Z.
Variable start_time : Z.
Variable end_time : Z.

Lemma branches_tame state lid : tame calm (branches fuel ci state lid).
Proof. unfold branches. tame_tac. Qed.

Lemma report_tame : tame calm (report start_time end_time).
Proof. unfold report. tame_tac. Qed.

#[local] Hint Resolve branches_tame report_tame : tame.

Lemma iteration_tame state :
  tame calm (iteration fuel ci last_index start_time end_time state).
Proof. unfold iteration. tame_tac. Qed.

Lemma main_while_tame n :
  forall state,
    tame calm (main_while fuel ci last_index start_time end_time n state).
Proof.
  induction n as [|n IH]; intros state; cbn [main_while];
    (apply tame_bind; [apply quiet_tame, quiet_time|]); intros t;
    destruct (_ <? _); try apply tame_ret; try apply tame_out_of_fuel.
  apply tame_bind; [apply iteration_tame | intros st; apply IH].
Qed.
End LoopFacts.

#[local] Hint Resolve main_while_tame : tame.

Lemma main_loop_body_tame fuel : tame calm (main_loop_body fuel).
Proof. unfold main_loop_body. tame_tac. Qed.

(** ** Fatal conditions *)

Local Abbreviation LAST_ITEM_NOT_FOUND :=
  "Last item not found. idk what to do. logging out.".

Lemma withdraw_app xs ys w :
  withdraw (xs ++ ys) w = bind (withdraw xs) (fun _ => withdraw ys) w.
Proof.
  revert w. induction xs as [|m xs IH]; intros w; [reflexivity|].
  cbn [app withdraw].
  rewrite bind_assoc. apply bind_ext. intros _ w1.
  rewrite bind_assoc. apply bind_ext. intros mat w2.
  rewrite bind_assoc. apply bind_ext. intros _ w3. apply IH.
Qed.

Lemma main_loop_tame fuel : tame calm (main_loop fuel).
Proof.
  unfold main_loop. apply tame_bind; [apply main_loop_body_tame|].
  intros _. apply tame_bind; [apply quiet_tame; quiet_tac|].
  intros _. apply tame_logout_then.
Qed.

Lemma main_loop_never_returns fuel w u w' : main_loop fuel w <> (Ret u, w').
Proof.
  unfold main_loop. intros E.
  apply bind_Ret_inv in E. destruct E as (st & w1 & _ & E).
  apply bind_Ret_inv in E. destruct E as (? & w2 & _ & E).
  rewrite logout_bind in E. discriminate.
Qed.

Section FatalFacts.
Variable fuel : nat.
Variable ci : CraftItem.
Variable last_index : Z.
Variable start_time : Z.
Variable end_time : Z.

Lemma iteration_fatal state w :
  truthy (lookup_last_item_id last_index (inventory host (S (calls w)))) = false ->
  iteration fuel ci last_index start_time end_time state w =
  (Stopped,
   snd (__logout LAST_ITEM_NOT_FOUND
          (tick (emit (ELog ("State: " +++ state)) (tick w))))).
Proof.
  intros Hl. unfold iteration.
  cbn [bind log_msg act get_inv ask calls tick emit].
  rewrite Hl. reflexivity.
Qed.

Lemma furnace_fatal lid w w1 :
  py_eq lid (id (item ci)) = false ->
  __click_on_furnace fuel w = (Ret false, w1) ->
  branches fuel ci PRE_CRAFT lid w =
  (Stopped, snd (__logout "Furnace not found." w1)).
Proof.
  intros Hl E. unfold branches. cbn [String.eqb PRE_CRAFT Ascii.eqb Bool.eqb].
  rewrite Hl, (bind_Ret _ _ _ _ _ E). reflexivity.
Qed.

Lemma bank_fatal lid w w1 :
  __click_on_bank fuel w = (Ret false, w1) ->
  branches fuel ci POST_CRAFT lid w =
  (Stopped, snd (__logout "Bank not found." w1)).
Proof.
  intros E. unfold branches. cbn [String.eqb PRE_CRAFT CRAFT POST_CRAFT Ascii.eqb Bool.eqb].
  rewrite (bind_Ret _ _ _ _ _ E). reflexivity.
Qed.

Lemma material_fatal before material rest w w1 :
  withdraw before w = (Ret tt, w1) ->
  image_in_rect host (S (calls w1))
    ("items/" +++ replace_space (name material) +++ ".png")
    (game_view host) (1 # 2) = None ->
  withdraw (before ++ material :: rest) w =
  (Stopped,
   snd (__logout ("Material " +++ name material +++ " not found.")
          (tick (emit (ELog ("Searching for " +++ name material +++ "... ("
                             +++ (replace_space (name material) +++ ".png") +++ ")"))
                   (tick w1))))).
Proof.
  intros E Hi. rewrite withdraw_app, (bind_Ret _ _ _ _ _ E).
  cbn [withdraw bind log_msg act search_img_in_rect ask calls tick emit].
  rewrite Hi. reflexivity.
Qed.
End FatalFacts.

(** C2.  Every fatal condition runs the handler, and the handler ends the
    run.  (1) A run of [main_loop] never returns to its caller; when it is
    ended by [stop()], its final world is the very world the handler
    [__logout(msg)] leaves -- log, logout, stop -- so no call, click or
    phase change comes after it, and no logout or stop comes before it.
    (2)-(5) The handler is what runs when the designated slot is missing
    from the snapshot (or holds no item id), when the furnace or the bank
    is not found by its primitive, and when the image of a material is not
    found in the bank. *)
Theorem fatal_handler_ends_the_run (fuel : nat) :
  (forall w,
     match main_loop fuel w with
     | (Ret _, _) => False
     | (Stopped, w') =>
         exists w0 msg evs,
           w' = snd (__logout msg w0) /\
           trace w' = trace w ++ evs ++ fatal_events msg /\ Forall calm evs
     | (_, w') => exists evs, trace w' = trace w ++ evs /\ Forall calm evs
     end) /\
  (forall ci last_index start_time end_time state w,
     truthy (lookup_last_item_id last_index (inventory host (S (calls w)))) = false ->
     iteration fuel ci last_index start_time end_time state w =
     (Stopped,
      snd (__logout LAST_ITEM_NOT_FOUND
             (tick (emit (ELog ("State: " +++ state)) (tick w)))))) /\
  (forall ci lid w w1,
     py_eq lid (id (item ci)) = false ->
     __click_on_furnace fuel w = (Ret false, w1) ->
     branches fuel ci PRE_CRAFT lid w =
     (Stopped, snd (__logout "Furnace not found." w1))) /\
  (forall ci lid w w1,
     __click_on_bank fuel w = (Ret false, w1) ->
     branches fuel ci POST_CRAFT lid w =
     (Stopped, snd (__logout "Bank not found." w1))) /\
  (forall before material rest w w1,
     withdraw before w = (Ret tt, w1) ->
     image_in_rect host (S (calls w1))
       ("items/" +++ replace_space (name material) +++ ".png")
       (game_view host) (1 # 2) = None ->
     exists w0,
       withdraw (before ++ material :: rest) w =
       (Stopped, snd (__logout ("Material " +++ name material +++ " not found.") w0))).
Proof.
  split; [|split; [|split; [|split]]].
  - intros w. pose proof (main_loop_tame fuel w) as Ht.
    pose proof (main_loop_never_returns fuel w) as Hn.
    destruct (main_loop fuel w) as [[u| |e|] w']; try exact Ht.
    + exact (Hn u w' eq_refl).
    + destruct Ht as (w0 & msg & evs & -> & Tr & F).
      exists w0, msg, evs. split; [reflexivity|].
      rewrite logout_trace, Tr, app_assoc. split; [reflexivity | exact F].
  - intros. apply iteration_fatal. assumption.
  - intros. apply furnace_fatal; assumption.
  - intros. apply bank_fatal. assumption.
  - intros. eexists. apply material_fatal; eassumption.
Qed.

(** C7.  In any phase -- whatever the phase tag is -- a pass whose
    snapshot has no record for the designated slot takes the fatal path:
    it logs, logs out and stops, and that ends the pass and the loop. *)
Theorem missing_slot_is_fatal
    (fuel : nat) (ci : CraftItem) (last_index start_time end_time : Z)
    (state : string) (n : nat) (w : World) :
  find (fun it => slot_index it =? last_index) (inventory host (S (calls w))) = None ->
  let w' := snd (iteration fuel ci last_index start_time end_time state w) in
  fst (iteration fuel ci last_index start_time end_time state w) = Stopped /\
  trace w' =
    trace w ++ [ELog ("State: " +++ state); ELog LAST_ITEM_NOT_FOUND; ELogout; EStop] /\
  (now w - start_time < 1000 * end_time ->
   main_while fuel ci last_index start_time end_time (S n) state w = (Stopped, w')).
Proof.
  intros Hf w'.
  assert (Hl : truthy (lookup_last_item_id last_index (inventory host (S (calls w)))) = false).
  { unfold lookup_last_item_id. rewrite Hf. reflexivity. }
  pose proof (iteration_fatal fuel ci last_index start_time end_time state w Hl) as E.
  subst w'. rewrite E. split; [reflexivity|]. split.
  - cbn. rewrite <- !app_assoc. reflexivity.
  - intros Hin. cbn [main_while]. unfold bind at 1. cbn [time].
    apply Z.ltb_lt in Hin. rewrite Hin.
    apply bind_Stopped. exact E.
Qed.

(** ** Phase transitions *)

Lemma report_run start_time end_time w :
  end_time <> 0 ->
  report start_time end_time w =
  (Ret tt,
   emit (EProgress (progress_fraction start_time end_time (now w + 1000)))
     (tick (snd (sleep 1 w)))).
Proof.
  intros He. apply Z.eqb_neq in He. unfold report.
  cbn [bind sleep time now emit]. rewrite He. reflexivity.
Qed.


(** ** What a computation can return *)

Lemma yields_ret {A} (P : A -> Prop) a : P a -> yields P (ret a).
Proof. intros Ha w b w' E. inversion E; subst. exact Ha. Qed.

Lemma yields_bind {A B} (P : B -> Prop) (m : M A) (k : A -> M B) :
  (forall a, yields P (k a)) -> yields P (bind m k).
Proof.
  intros Hk w b w' E. apply bind_Ret_inv in E.
  destruct E as (a & w1 & _ & E). exact (Hk a w1 b w' E).
Qed.

Lemma valid_PRE_CRAFT : valid_phase PRE_CRAFT.
Proof. left. reflexivity. Qed.
Lemma valid_CRAFT : valid_phase CRAFT.
Proof. right. left. reflexivity. Qed.
Lemma valid_POST_CRAFT : valid_phase POST_CRAFT.
Proof. right. right. left. reflexivity. Qed.
Lemma valid_BANK : valid_phase BANK.
Proof. right. right. right. reflexivity. Qed.

Ltac yields_tac :=
  repeat first
    [ apply yields_ret
    | match goal with
      | |- yields _ (if ?x then _ else _) => destruct x
      end
    | apply yields_bind; intros ? ].

Section PhaseFacts.
Variable fuel : nat.
Variable ci : CraftItem.
Variable last_index : Z.
Variable start_time : Z.
Variable end_time : Z.

(** Every assignment to [state] in the branches writes one of the four
    tags, or leaves the tag as it is. *)
Lemma branches_phase state lid :
  valid_phase state ->
  yields (fun fl => valid_phase (flow_state fl)) (branches fuel ci state lid).
Proof.
  intros Hv. unfold branches. yields_tac; cbn [flow_state];
    try match goal with
        | |- valid_phase (if ?c then _ else _) => destruct c
        end;
    auto using valid_PRE_CRAFT, valid_CRAFT, valid_POST_CRAFT, valid_BANK.
Qed.

(** Only the pre-craft branch that finds the target item leaves by
    [continue]. *)
Lemma branches_continue state lid :
  yields (fun fl => forall s, fl = Continue s ->
                    String.eqb state PRE_CRAFT && py_eq lid (id (item ci)) = true)
    (branches fuel ci state lid).
Proof.
  unfold branches.
  destruct (String.eqb state PRE_CRAFT); cbn [andb].
  - destruct (py_eq lid (id (item ci))); yields_tac; intros s E;
      solve [reflexivity | discriminate].
  - yields_tac; intros s E; discriminate.
Qed.

Lemma iteration_phase state :
  valid_phase state ->
  yields valid_phase (iteration fuel ci last_index start_time end_time state).
Proof.
  intros Hv. unfold iteration.
  apply yields_bind; intros _. apply yields_bind; intros inv.
  apply yields_bind; intros _.
  intros w st' w' E. apply bind_Ret_inv in E.
  destruct E as (fl & w1 & Eb & E).
  pose proof (branches_phase _ _ Hv _ _ _ Eb) as Hfl.
  destruct fl as [s|s]; cbn [flow_state] in Hfl.
  - inversion E; subst. exact Hfl.
  - apply bind_Ret_inv in E. destruct E as (_ & w2 & _ & E).
    inversion E; subst. exact Hfl.
Qed.

Lemma reaches_phase state0 w0 state w :
  valid_phase state0 ->
  reaches fuel ci last_index start_time end_time state0 w0 state w ->
  valid_phase state.
Proof.
  intros Hv. induction 1 as [|state w state' w' _ IH _ E]; [exact Hv|].
  exact (iteration_phase _ IH _ _ _ E).
Qed.

Lemma main_while_phase n :
  forall state,
    valid_phase state ->
    yields valid_phase (main_while fuel ci last_index start_time end_time n state).
Proof.
  induction n as [|n IH]; intros state Hv; cbn [main_while];
    apply yields_bind; intros t; destruct (_ <? _);
    try (apply yields_ret; exact Hv).
  - intros w a w' E. discriminate.
  - intros w a w' E. apply bind_Ret_inv in E.
    destruct E as (st & w1 & Ei & E).
    exact (IH st (iteration_phase _ Hv _ _ _ Ei) _ _ _ E).
Qed.

(** The loop is left by its condition only: the budget has elapsed. *)
Lemma main_while_elapsed n :
  forall state w st' w',
    main_while fuel ci last_index start_time end_time n state w = (Ret st', w') ->
    1000 * end_time <= now w' - start_time.
Proof.
  induction n as [|n IH]; intros state w st' w' E; cbn [main_while] in E;
    unfold bind at 1 in E; cbn [time] in E;
    destruct (now w - start_time <? 1000 * end_time) eqn:Ec;
    try discriminate.
  - inversion E; subst. apply Z.ltb_ge in Ec. exact Ec.
  - apply bind_Ret_inv in E. destruct E as (st & w1 & _ & E).
    exact (IH _ _ _ _ E).
  - inversion E; subst. apply Z.ltb_ge in Ec. exact Ec.
Qed.

(** The loop function visits the loop heads [reaches] describes. *)
Lemma main_while_reaches n :
  forall state0 w0 state w st' w',
    reaches fuel ci last_index start_time end_time state0 w0 state w ->
    main_while fuel ci last_index start_time end_time n state w = (Ret st', w') ->
    reaches fuel ci last_index start_time end_time state0 w0 st' w'.
Proof.
  induction n as [|n IH]; intros state0 w0 state w st' w' Hr E;
    cbn [main_while] in E; unfold bind at 1 in E; cbn [time] in E;
    destruct (now w - start_time <? 1000 * end_time) eqn:Ec;
    try discriminate.
  - inversion E; subst. exact Hr.
  - apply bind_Ret_inv in E. destruct E as (st & w1 & Ei & E).
    apply (IH state0 w0 st w1); [|exact E].
    apply Z.ltb_lt in Ec. econstructor; eassumption.
  - inversion E; subst. exact Hr.
Qed.
End PhaseFacts.

(** [main_loop] enters the loop in the pre-craft phase. *)
Lemma main_loop_body_enters fuel ci w :
  craft_item self = Some ci -> materials ci <> [] ->
  exists w0,
    main_loop_body fuel w =
    main_while fuel ci (last_craft_item_index true ci) (now w0)
      (running_time self * 60) fuel PRE_CRAFT w0 /\
    now w <= now w0.
Proof.
  intros Hc Hm. unfold main_loop_body.
  cbn [bind log_msg mouse_move_to mouse_click act calls tick emit].
  rewrite Hc.
  destruct (Z.of_nat (List.length (materials ci)) =? 0) eqn:El.
  - apply Z.eqb_eq in El. destruct (materials ci); [congruence | cbn in El; lia].
  - exists (emit (ELog ("Max craftable: " +++ str_of_Z (max_craftable true ci)))
              (tick (emit EClick
                 (tick (emit (EMoveTo (CpTab 3))
                    (tick (emit (ELog "Selecting inventory...") (tick w)))))))).
    split; [reflexivity|]. cbn [now tick emit]. lia.
Qed.

Lemma main_loop_body_phase fuel : yields valid_phase (main_loop_body fuel).
Proof.
  unfold main_loop_body. do 3 (apply yields_bind; intros _).
  destruct (craft_item self) as [ci|]; [|intros w a w' E; discriminate].
  destruct (_ =? _); [intros w a w' E; discriminate|].
  do 2 (apply yields_bind; intros ?).
  apply main_while_phase, valid_PRE_CRAFT.
Qed.

(** C10.  The phase variable holds one of the four tags "pre-craft",
    "craft", "post-craft", "bank" throughout [main_loop]: the loop is
    entered with "pre-craft"; every branch of the loop body, started with
    one of the four tags, leaves one of the four tags in the variable; so
    at the head of every pass, and when the loop is left, the variable
    holds one of the four.  The four tags are pairwise different. *)
Theorem phase_is_one_of_four (fuel : nat) :
  valid_phase PRE_CRAFT /\
  (forall ci w,
     craft_item self = Some ci -> materials ci <> [] ->
     exists w0,
       main_loop_body fuel w =
       main_while fuel ci (last_craft_item_index true ci) (now w0)
         (running_time self * 60) fuel PRE_CRAFT w0) /\
  (forall ci state lid w fl w',
     valid_phase state ->
     branches fuel ci state lid w = (Ret fl, w') ->
     valid_phase (flow_state fl)) /\
  (forall ci last_index start_time end_time w0 state w,
     reaches fuel ci last_index start_time end_time PRE_CRAFT w0 state w ->
     valid_phase state) /\
  (forall w state w',
     main_loop_body fuel w = (Ret state, w') -> valid_phase state) /\
  (PRE_CRAFT <> CRAFT /\ PRE_CRAFT <> POST_CRAFT /\ PRE_CRAFT <> BANK /\
   CRAFT <> POST_CRAFT /\ CRAFT <> BANK /\ POST_CRAFT <> BANK).
Proof.
  split; [apply valid_PRE_CRAFT|].
  split.
  { intros ci w Hc Hm.
    destruct (main_loop_body_enters fuel ci w Hc Hm) as (w0 & E & _).
    exists w0. exact E. }
  split.
  { intros ci state lid w fl w' Hv E. exact (branches_phase fuel ci _ _ Hv _ _ _ E). }
  split.
  { intros ci last_index start_time end_time w0 state w Hr.
    exact (reaches_phase _ _ _ _ _ _ _ _ _ valid_PRE_CRAFT Hr). }
  split.
  { intros w state w' E. exact (main_loop_body_phase fuel _ _ _ E). }
  repeat split; discriminate.
Qed.

(** ** The designated slot *)

(** C6.  The designated slot index is [(availableSlots // materialsPerCraft) - 1]
    with [availableSlots] = 28, less 1 when the mould takes a slot: with the
    mould, 26 for a one-material recipe and 12 for a two-material recipe --
    so 26 for the gold amulet and 12 for the sapphire ring of the catalog. *)
Theorem designated_slot_index_formula (use_mould : bool) (ci : CraftItem) :
  last_craft_item_index use_mould ci =
    (28 - (if use_mould then 1 else 0)) / Z.of_nat (List.length (materials ci)) - 1 /\
  (List.length (materials ci) = 1%nat -> last_craft_item_index true ci = 26) /\
  (List.length (materials ci) = 2%nat -> last_craft_item_index true ci = 12) /\
  (__init_craft_item GOLD_AMULET_U_NAME = Some ci -> last_craft_item_index true ci = 26) /\
  (GOLD_AMULET_U ids <> SAPPHIRE_RING ids ->
   __init_craft_item SAPPHIRE_RING_NAME = Some ci -> last_craft_item_index true ci = 12).
Proof.
  unfold last_craft_item_index, max_craftable, available_slots.
  split; [destruct use_mould; reflexivity|].
  split; [intros ->; reflexivity|].
  split; [intros ->; reflexivity|].
  split.
  - cbn. intros E. inversion E; subst. cbn.
    unfold __init_materials. cbn. rewrite Z.eqb_refl. reflexivity.
  - cbn. intros Hne E. inversion E; subst. cbn.
    unfold __init_materials. cbn.
    apply not_eq_sym, Z.eqb_neq in Hne. rewrite Hne, Z.eqb_refl. reflexivity.
Qed.

(** ** The bank phase *)

Lemma tame_extends {A} ok (m : M A) :
  tame ok m -> forall w, exists evs, trace (snd (m w)) = trace w ++ evs.
Proof.
  intros Hm w. specialize (Hm w).
  destruct (m w) as [[a| |e|] w']; cbn [snd].
  - destruct Hm as (_ & evs & Tr & _). exists evs. exact Tr.
  - destruct Hm as (w0 & msg & evs & -> & Tr & _).
    exists (evs ++ fatal_events msg).
    rewrite logout_trace, Tr, app_assoc. reflexivity.
  - destruct Hm as (evs & Tr & _). exists evs. exact Tr.
  - destruct Hm as (evs & Tr & _). exists evs. exact Tr.
Qed.

(** C1, as the code has it.  The bank branch first clicks inventory
    slot 4 -- a fixed slot, whatever the designated slot index is -- then
    waits one second, and only then withdraws the materials, leaves the
    bank and goes to pre-craft. *)
Theorem bank_deposit_clicks_slot_four
    (fuel : nat) (ci : CraftItem) (lid : option Z) (w : World) :
  deposit_clicks_slot 4 fuel ci lid w /\
  exists w3,
    trace w3 = trace w ++ [EMoveTo (InventorySlot 4); EClick; ESleep 1] /\
    now w + 1000 <= now w3 /\
    branches fuel ci BANK lid w =
    (withdraw (materials ci) ;; __exit_bank ;; ret (Fallthrough PRE_CRAFT)) w3.
Proof.
  set (w3 := snd (sleep 1 (snd (mouse_click (snd (mouse_move_to (InventorySlot 4) w)))))).
  assert (Tr3 : trace w3 = trace w ++ [EMoveTo (InventorySlot 4); EClick; ESleep 1]).
  { cbn. rewrite <- !app_assoc. reflexivity. }
  assert (Eb : branches fuel ci BANK lid w =
               (withdraw (materials ci) ;; __exit_bank ;; ret (Fallthrough PRE_CRAFT)) w3).
  { reflexivity. }
  split.
  - unfold deposit_clicks_slot. rewrite Eb.
    assert (Ht : tame calm (withdraw (materials ci) ;; __exit_bank ;; ret (Fallthrough PRE_CRAFT))).
    { apply tame_bind; [apply withdraw_tame|]. intros _.
      apply tame_bind; [apply exit_bank_tame|]. intros _. apply tame_ret. }
    destruct (tame_extends _ _ Ht w3) as (rest & Tr).
    exists rest. rewrite Tr, Tr3, <- app_assoc. reflexivity.
  - exists w3. split; [exact Tr3|]. split; [|exact Eb].
    subst w3. cbn. lia.
Qed.

(** ** The end of a pass *)


(** ** Normal shutdown *)

Lemma main_loop_body_Ret_inv fuel w state w1 :
  main_loop_body fuel w = (Ret state, w1) ->
  exists ci w0,
    craft_item self = Some ci /\ materials ci <> [] /\ now w <= now w0 /\
    main_while fuel ci (last_craft_item_index true ci) (now w0)
      (running_time self * 60) fuel PRE_CRAFT w0 = (Ret state, w1).
Proof.
  intros E.
  destruct (craft_item self) as [ci|] eqn:Hc.
  - destruct (materials ci) as [|m ms] eqn:Hm.
    + unfold main_loop_body in E.
      cbn [bind log_msg mouse_move_to mouse_click act calls tick emit] in E.
      rewrite Hc, Hm in E. discriminate.
    + assert (Hne : materials ci <> []) by (rewrite Hm; discriminate).
      destruct (main_loop_body_enters fuel ci w Hc Hne) as (w0 & E0 & L0).
      exists ci, w0. repeat split; try assumption.
      rewrite <- E0. exact E.
  - unfold main_loop_body in E.
    cbn [bind log_msg mouse_move_to mouse_click act calls tick emit] in E.
    rewrite Hc in E. discriminate.
Qed.

(** C3.  When the loop of [main_loop] is left because the time budget has
    elapsed -- no fatal condition having ended the run -- the controller
    reports progress 1, then logs "Finished.", logs out and stops; in the
    whole run there is exactly one logout and exactly one stop, the logout
    before the stop, and nothing after the stop. *)
Theorem budget_elapsed_shutdown (fuel : nat) (w : World) (state : string) :
  fst (main_loop_body fuel w) = Ret state ->
  let w1 := snd (main_loop_body fuel w) in
  let w2 := snd (main_loop fuel w) in
  fst (main_loop fuel w) = Stopped /\
  1000 * (running_time self * 60) <= now w1 - now w /\
  exists evs,
    trace w1 = trace w ++ evs /\ Forall calm evs /\
    trace w2 = trace w ++ evs ++ [EProgress 1; ELog "Finished."; ELogout; EStop] /\
    count is_logout (evs ++ [EProgress 1; ELog "Finished."; ELogout; EStop]) = 1%nat /\
    count is_stop (evs ++ [EProgress 1; ELog "Finished."; ELogout; EStop]) = 1%nat.
Proof.
  intros H w1 w2. subst w1 w2.
  destruct (main_loop_body fuel w) as [o w1] eqn:E. cbn [fst snd] in *. subst o.
  assert (Em : main_loop fuel w =
               (update_progress 1 ;; __logout "Finished." ;; stop) w1).
  { exact (bind_Ret _ (fun _ => update_progress 1 ;; __logout "Finished." ;; stop)
             _ _ _ E). }
  rewrite Em. split; [reflexivity|].
  split.
  { destruct (main_loop_body_Ret_inv _ _ _ _ E) as (ci & w0 & _ & _ & L0 & Ew).
    apply main_while_elapsed in Ew. lia. }
  pose proof (main_loop_body_tame fuel w) as Ht. rewrite E in Ht.
  destruct Ht as (_ & evs & Tr & F).
  exists evs. split; [exact Tr|]. split; [exact F|].
  split; [|split].
  - cbn. rewrite Tr, <- !app_assoc. reflexivity.
  - rewrite count_app, (count_calm_logout _ F). reflexivity.
  - rewrite count_app, (count_calm_stop _ F). reflexivity.
Qed.

(** ** Termination of the main loop *)

Lemma tame_mono {A} ok (m : M A) w a w' :
  tame ok m -> m w = (Ret a, w') -> now w <= now w'.
Proof. intros Hm E. specialize (Hm w). rewrite E in Hm. apply Hm. Qed.

Lemma quiet_sure {A} ok (m : M A) : quiet ok m -> sure m.
Proof.
  intros Hm w. destruct (Hm w) as (a & w' & E & T' & _). rewrite E. exact T'.
Qed.

Lemma sure_bind {A B} (m : M A) (k : A -> M B) :
  sure m -> (forall a, sure (k a)) -> sure (bind m k).
Proof.
  intros Hm Hk w. specialize (Hm w). unfold bind.
  destruct (m w) as [[a| |e|] w1]; try exact Hm.
  specialize (Hk a w1). destruct (k a w1) as [[b| |e|] w2]; try exact Hk. lia.
Qed.

Lemma sure_ret {A} (a : A) : sure (ret a).
Proof. intros w. cbn. lia. Qed.

Lemma sure_logout msg : sure (__logout msg).
Proof. intros w. exact I. Qed.

Lemma sure_logout_then {B} msg (k : unit -> M B) : sure (bind (__logout msg) k).
Proof. intros w. exact I. Qed.

Lemma clicks_sure m : clicks_iff_true m -> sure m.
Proof.
  intros Hm w. destruct (Hm w) as (b & w' & evs & E & T' & _). rewrite E. exact T'.
Qed.

Create HintDb sure.

Ltac sure_tac :=
  repeat first
    [ solve [auto with sure]
    | apply sure_logout_then
    | apply sure_ret | apply sure_logout
    | apply (quiet_sure (fun _ => True)); solve [quiet_tac]
    | match goal with
      | |- sure (match ?x with _ => _ end) => destruct x
      end
    | apply sure_bind; [|intros ?] ].

Lemma withdraw_sure ms : sure (withdraw ms).
Proof.
  induction ms as [|material rest IH]; cbn [withdraw]; sure_tac.
Qed.

Lemma exit_bank_sure : sure __exit_bank.
Proof. unfold __exit_bank. sure_tac. Qed.

#[local] Hint Resolve withdraw_sure exit_bank_sure : sure.

Section Termination.
Variable fuel : nat.
Variable ci : CraftItem.
Variable last_index : Z.
Variable start_time : Z.
Variable end_time : Z.
Hypothesis fuel_ok : DEFAULT_RETRY_SECONDS <= Z.of_nat fuel.

Lemma click_on_furnace_sure : sure (__click_on_furnace fuel).
Proof. apply clicks_sure, click_on_furnace_clicks, fuel_ok. Qed.

Lemma click_on_bank_sure : sure (__click_on_bank fuel).
Proof. apply clicks_sure, click_on_bank_clicks, fuel_ok. Qed.

Lemma begin_crafting_sure i : sure (__begin_crafting fuel i).
Proof. apply clicks_sure, begin_crafting_clicks, fuel_ok. Qed.

#[local] Hint Resolve click_on_furnace_sure click_on_bank_sure
  begin_crafting_sure : sure.

Lemma branches_sure state lid : sure (branches fuel ci state lid).
Proof. unfold branches. sure_tac. Qed.

Lemma report_sure : end_time <> 0 -> sure (report start_time end_time).
Proof.
  intros He w. rewrite (report_run _ _ _ He). cbn. lia.
Qed.

#[local] Hint Resolve branches_sure report_sure : sure.

Lemma iteration_sure state :
  end_time <> 0 ->
  sure (iteration fuel ci last_index start_time end_time state).
Proof. intros He. unfold iteration. sure_tac. Qed.

(** The [continue] branch leaves the phase at post-craft. *)
Lemma branches_continue_state state lid :
  yields (fun fl => forall s, fl = Continue s -> s = POST_CRAFT)
    (branches fuel ci state lid).
Proof.
  unfold branches. yields_tac; intros s E; inversion E; reflexivity.
Qed.

(** A pass that returns has slept a second, unless it is the pre-craft
    pass that goes straight on to post-craft. *)
Lemma iteration_progress state w state' w' :
  iteration fuel ci last_index start_time end_time state w = (Ret state', w') ->
  now w + 1000 <= now w' \/
  (String.eqb state PRE_CRAFT = true /\ state' = POST_CRAFT /\ now w <= now w').
Proof.
  intros E.
  pose proof (iteration_tame fuel ci last_index start_time end_time state w) as Ht.
  rewrite E in Ht. destruct Ht as (Hmono & _).
  unfold iteration in E.
  apply bind_Ret_inv in E. destruct E as (ua & wa & Ea & E).
  apply bind_Ret_inv in E. destruct E as (inv & wb & Eb & E).
  apply bind_Ret_inv in E. destruct E as (uc & wc & Ec & E).
  apply bind_Ret_inv in E. destruct E as (fl & w2 & Ef & E).
  assert (La : now w <= now wa).
  { refine (tame_mono (fun _ => True) _ _ _ _ _ Ea). tame_tac. }
  assert (Lb : now wa <= now wb).
  { refine (tame_mono (fun _ => True) _ _ _ _ _ Eb). tame_tac. }
  assert (Lc : now wb <= now wc).
  { refine (tame_mono (fun _ => True) _ _ _ _ _ Ec). tame_tac. }
  pose proof (branches_tame fuel ci state (lookup_last_item_id last_index inv) wc) as Hb.
  rewrite Ef in Hb. destruct Hb as (Lf & _).
  destruct fl as [s|s].
  - right. inversion E; subst.
    pose proof (branches_continue fuel ci state _ _ _ _ Ef _ eq_refl) as Hc.
    apply andb_prop in Hc. destruct Hc as [Hs _].
    pose proof (branches_continue_state state _ _ _ _ Ef _ eq_refl) as Hp.
    repeat split; assumption.
  - left. apply bind_Ret_inv in E. destruct E as ([] & w3 & Er & E).
    inversion E; subst. unfold report in Er.
    cbn [bind sleep time now emit] in Er.
    destruct (end_time =? 0); [discriminate|].
    inversion Er; subst. cbn. lia.
Qed.

(** Two passes in a row take at least a second, so twice the budget in
    seconds, and one, is a bound on the number of passes. *)
Lemma main_while_sure n :
  forall (k : nat) state w,
    start_time <= now w ->
    1000 * end_time - (now w - start_time) <= 1000 * Z.of_nat k ->
    (2 * k + (if String.eqb state PRE_CRAFT then 1 else 0) <= n)%nat ->
    match main_while fuel ci last_index start_time end_time n state w with
    | (Ret _, w') => now w <= now w'
    | (Stopped, _) => True
    | _ => False
    end.
Proof.
  induction n as [|n IH]; intros k state w Hs Hk Hn; cbn [main_while];
    unfold bind at 1; cbn [time];
    destruct (now w - start_time <? 1000 * end_time) eqn:Ec;
    try (cbn; lia);
    try (apply Z.ltb_lt in Ec; destruct (String.eqb state PRE_CRAFT); cbn; lia).
  apply Z.ltb_lt in Ec.
  assert (He : end_time <> 0) by lia.
  pose proof (iteration_sure state He w) as Hsure.
  unfold bind.
  destruct (iteration fuel ci last_index start_time end_time state w)
    as [[st'| |e|] w1] eqn:Ei; try exact Hsure.
  destruct (iteration_progress _ _ _ _ Ei) as [Hp | (Hpre & -> & Hp)].
  - specialize (IH (k - 1)%nat st' w1).
    destruct (main_while fuel ci last_index start_time end_time n st' w1)
      as [[s| |e|] w2].
    + assert (now w1 <= now w2); [|lia].
      apply IH; [lia | lia |].
      destruct (String.eqb st' PRE_CRAFT), (String.eqb state PRE_CRAFT); lia.
    + exact I.
    + apply IH; [lia | lia |].
      destruct (String.eqb st' PRE_CRAFT), (String.eqb state PRE_CRAFT); lia.
    + apply IH; [lia | lia |].
      destruct (String.eqb st' PRE_CRAFT), (String.eqb state PRE_CRAFT); lia.
  - rewrite Hpre in Hn.
    specialize (IH k POST_CRAFT w1).
    destruct (main_while fuel ci last_index start_time end_time n POST_CRAFT w1)
      as [[s| |e|] w2].
    + assert (now w1 <= now w2); [|lia].
      apply IH; [lia | lia | cbn; lia].
    + exact I.
    + apply IH; [lia | lia | cbn; lia].
    + apply IH; [lia | lia | cbn; lia].
Qed.
End Termination.

(** With a recipe selected and enough fuel for the model's loops,
    [main_loop] always comes to an end, and it ends by [stop()]. *)
Theorem main_loop_always_stops (fuel : nat) (ci : CraftItem) (w : World) :
  craft_item self = Some ci -> materials ci <> [] ->
  DEFAULT_RETRY_SECONDS <= Z.of_nat fuel ->
  2 * Z.max 0 (running_time self * 60) + 1 <= Z.of_nat fuel ->
  fst (main_loop fuel w) = Stopped.
Proof.
  intros Hc Hm Hf15 Hf.
  destruct (main_loop_body_enters fuel ci w Hc Hm) as (w0 & E0 & _).
  pose proof (main_while_sure fuel ci (last_craft_item_index true ci) (now w0)
                (running_time self * 60) Hf15 fuel
                (Z.to_nat (running_time self * 60)) PRE_CRAFT w0) as Hs.
  rewrite <- E0 in Hs.
  assert (Hb : match main_loop_body fuel w with
               | (Ret _, _) | (Stopped, _) => True
               | _ => False
               end).
  { destruct (main_loop_body fuel w) as [[s| |e|] w1]; try exact I;
      apply Hs; cbn [String.eqb PRE_CRAFT Ascii.eqb Bool.eqb]; lia. }
  unfold main_loop, bind at 1.
  destruct (main_loop_body fuel w) as [[s| |e|] w1]; try reflexivity;
    destruct Hb.
Qed.

(** ** The recipe catalog and the options *)

Lemma init_materials_nonempty_amulet :
  __init_materials (mkItem GOLD_AMULET_U_NAME (GOLD_AMULET_U ids)) =
  [mkItem GOLD_BAR_NAME (GOLD_BAR ids)].
Proof. unfold __init_materials. cbn [id]. rewrite Z.eqb_refl. reflexivity. Qed.

Lemma init_materials_ring :
  let ms := __init_materials (mkItem SAPPHIRE_RING_NAME (SAPPHIRE_RING ids)) in
  ms = [mkItem GOLD_BAR_NAME (GOLD_BAR ids)] \/
  ms = [mkItem GOLD_BAR_NAME (GOLD_BAR ids); mkItem SAPPHIRE_NAME (SAPPHIRE ids)].
Proof.
  unfold __init_materials. cbn [id].
  destruct (SAPPHIRE_RING ids =? GOLD_AMULET_U ids); [left; reflexivity|].
  rewrite Z.eqb_refl. right. reflexivity.
Qed.

Lemma init_craft_item_Some item_name ci :
  __init_craft_item item_name = Some ci ->
  In item_name [GOLD_AMULET_U_NAME; SAPPHIRE_RING_NAME] /\
  name (item ci) = item_name /\
  materials ci <> [] /\ (List.length (materials ci) <= 2)%nat /\
  Forall (fun m => m = mkItem GOLD_BAR_NAME (GOLD_BAR ids) \/
                   m = mkItem SAPPHIRE_NAME (SAPPHIRE ids)) (materials ci).
Proof.
  unfold __init_craft_item.
  destruct (String.eqb_spec item_name GOLD_AMULET_U_NAME) as [->|Ha].
  - intros E. inversion E; subst; clear E. unfold new_CraftItem. cbn [item materials name].
    rewrite init_materials_nonempty_amulet.
    repeat split; [left; reflexivity | discriminate | cbn; lia |].
    repeat constructor.
  - destruct (String.eqb_spec item_name SAPPHIRE_RING_NAME) as [->|Hr]; [|discriminate].
    intros E. inversion E; subst; clear E. unfold new_CraftItem. cbn [item materials name].
    destruct init_materials_ring as [-> | ->];
      (repeat split; [right; left; reflexivity | discriminate | cbn; lia |]).
    + repeat constructor.
    + constructor; [left; reflexivity|]. constructor; [right; reflexivity|]. constructor.
Qed.

Lemma init_craft_item_None item_name :
  ~ In item_name [GOLD_AMULET_U_NAME; SAPPHIRE_RING_NAME] ->
  __init_craft_item item_name = None.
Proof.
  intros Hn. unfold __init_craft_item.
  destruct (String.eqb_spec item_name GOLD_AMULET_U_NAME) as [->|Ha].
  { exfalso. apply Hn. left. reflexivity. }
  destruct (String.eqb_spec item_name SAPPHIRE_RING_NAME) as [->|Hr].
  { exfalso. apply Hn. right. left. reflexivity. }
  reflexivity.
Qed.

(** The names the dropdown of [create_options] offers are exactly the
    names [__init_craft_item] turns into a recipe; every recipe it builds
    is for the item asked for and has one or two materials, each a gold bar
    or a sapphire; any other name gives [None]. *)
Theorem catalog_matches_dropdown (item_name : string) :
  (forall key label values,
     In (DropdownOption key label values) create_options ->
     (In item_name values <-> exists ci, __init_craft_item item_name = Some ci)) /\
  (forall ci,
     __init_craft_item item_name = Some ci ->
     name (item ci) = item_name /\
     materials ci = __init_materials (item ci) /\
     materials ci <> [] /\ (List.length (materials ci) <= 2)%nat /\
     Forall (fun m => m = mkItem GOLD_BAR_NAME (GOLD_BAR ids) \/
                      m = mkItem SAPPHIRE_NAME (SAPPHIRE ids)) (materials ci)) /\
  (~ In item_name [GOLD_AMULET_U_NAME; SAPPHIRE_RING_NAME] ->
   __init_craft_item item_name = None).
Proof.
  split; [|split].
  - intros key label values Hin.
    assert (values = [GOLD_AMULET_U_NAME; SAPPHIRE_RING_NAME]) as ->.
    { cbn in Hin. destruct Hin as [E|[E|[]]]; [discriminate | inversion E; reflexivity]. }
    split.
    + intros Hv. destruct (__init_craft_item item_name) as [ci|] eqn:E; [eauto|].
      exfalso. revert E. unfold __init_craft_item.
      cbn in Hv. destruct Hv as [<-|[<-|[]]]; cbn; discriminate.
    + intros [ci E]. apply (init_craft_item_Some _ _ E).
  - intros ci E. destruct (init_craft_item_Some _ _ E) as (_ & Hn & Hm & Hl & Hf).
    repeat split; try assumption.
    revert E. unfold __init_craft_item.
    destruct (String.eqb _ _); [intros E; inversion E; reflexivity|].
    destruct (String.eqb _ _); [intros E; inversion E; reflexivity | discriminate].
  - apply init_craft_item_None.
Qed.

(** ** [save_options] *)

Lemma save_options_loop_flag options :
  forall bot,
    st_options_set (fst (save_options_loop options bot)) = st_options_set bot.
Proof.
  induction options as [|[k v] rest IH]; intros bot; cbn [save_options_loop];
    [reflexivity|].
  destruct (String.eqb k "running_time"); [rewrite IH; reflexivity|].
  destruct (String.eqb k "craft_item"); [rewrite IH; reflexivity|].
  reflexivity.
Qed.

(** The loop is left early at the first key that is not known. *)
Lemma save_options_loop_unknown options :
  forall bot bot1 k,
    save_options_loop options bot = (bot1, Some k) ->
    exists before v rest,
      options = before ++ (k, v) :: rest /\ ~ known_key k /\
      Forall known_key (map fst before) /\
      bot1 = fst (save_options_loop before bot).
Proof.
  induction options as [|[k0 v0] rest IH]; intros bot bot1 k E;
    cbn [save_options_loop] in E; [discriminate|].
  destruct (String.eqb_spec k0 "running_time") as [->|Hr].
  { destruct (IH _ _ _ E) as (before & v & rest' & -> & Hk & Hb & ->).
    exists (("running_time", v0) :: before), v, rest'.
    repeat split; try assumption.
    constructor; [left; reflexivity | exact Hb]. }
  destruct (String.eqb_spec k0 "craft_item") as [->|Hc].
  { destruct (IH _ _ _ E) as (before & v & rest' & -> & Hk & Hb & ->).
    exists (("craft_item", v0) :: before), v, rest'.
    repeat split; try assumption.
    constructor; [right; reflexivity | exact Hb]. }
  inversion E; subst. exists [], v0, rest.
  repeat split; [|constructor]. intros [H1|H1]; contradiction.
Qed.

Lemma save_options_loop_has_unknown options :
  forall bot k,
    In k (map fst options) -> ~ known_key k ->
    exists bot1 k', save_options_loop options bot = (bot1, Some k').
Proof.
  induction options as [|[k0 v0] rest IH]; intros bot k Hin Hk; [destruct Hin|].
  cbn [save_options_loop].
  destruct (String.eqb_spec k0 "running_time") as [->|Hr].
  { destruct Hin as [<-|Hin]; [exfalso; apply Hk; left; reflexivity|].
    exact (IH _ _ Hin Hk). }
  destruct (String.eqb_spec k0 "craft_item") as [->|Hc].
  { destruct Hin as [<-|Hin]; [exfalso; apply Hk; right; reflexivity|].
    exact (IH _ _ Hin Hk). }
  eauto.
Qed.

Lemma save_options_loop_known options :
  forall bot,
    Forall known_key (map fst options) ->
    snd (save_options_loop options bot) = None.
Proof.
  induction options as [|[k0 v0] rest IH]; intros bot Hk; [reflexivity|].
  inversion Hk as [|? ? H0 Hrest]; subst. cbn [save_options_loop].
  destruct (String.eqb_spec k0 "running_time") as [->|Hr]; [apply IH, Hrest|].
  destruct (String.eqb_spec k0 "craft_item") as [->|Hc]; [apply IH, Hrest|].
  destruct H0; contradiction.
Qed.

Lemma dict_get_missing key options :
  ~ In key (map fst options) -> dict_get key options = None.
Proof.
  unfold dict_get. induction options as [|[k v] rest IH]; intros Hn; [reflexivity|].
  cbn [find fst]. destruct (String.eqb_spec k key) as [->|Hne].
  - exfalso. apply Hn. left. reflexivity.
  - apply IH. intros Hin. apply Hn. right. exact Hin.
Qed.

Lemma dict_get_head key v options : dict_get key ((key, v) :: options) = Some v.
Proof. unfold dict_get. cbn [find fst]. rewrite String.eqb_refl. reflexivity. Qed.

Lemma dict_get_other k0 key v options :
  k0 <> key -> dict_get key ((k0, v) :: options) = dict_get key options.
Proof.
  intros Hne. unfold dict_get. cbn [find fst].
  destruct (String.eqb_spec k0 key); [contradiction | reflexivity].
Qed.

(** With known keys only, the loop stores [options["running_time"]] and
    the recipe of [options["craft_item"]], each where the key is there. *)
Lemma save_options_loop_fields options :
  forall bot,
    Forall known_key (map fst options) -> NoDup (map fst options) ->
    let bot1 := fst (save_options_loop options bot) in
    st_running_time bot1 =
      match dict_get "running_time" options with
      | Some v => v
      | None => st_running_time bot
      end /\
    st_craft_item bot1 =
      match dict_get "craft_item" options with
      | Some v => craft_item_of_value v
      | None => st_craft_item bot
      end.
Proof.
  induction options as [|[k0 v0] rest IH]; intros bot Hk Hd; [split; reflexivity|].
  inversion Hk as [|? ? H0 Hrest]; subst.
  inversion Hd as [|? ? Hnotin Hd']; subst.
  cbn [map fst] in Hnotin. cbn [save_options_loop].
  destruct (String.eqb_spec k0 "running_time") as [->|Hr].
  { destruct (IH (mkBotState v0 (st_craft_item bot) (st_options_set bot)) Hrest Hd')
      as [E1 E2].
    cbn zeta in *. rewrite E1, E2, dict_get_head.
    rewrite (dict_get_other "running_time" "craft_item") by discriminate.
    rewrite (dict_get_missing _ _ Hnotin). split; reflexivity. }
  destruct (String.eqb_spec k0 "craft_item") as [->|Hc].
  { destruct (IH (mkBotState (st_running_time bot) (craft_item_of_value v0)
                    (st_options_set bot)) Hrest Hd') as [E1 E2].
    cbn zeta in *. rewrite E1, E2, dict_get_head.
    rewrite (dict_get_other "craft_item" "running_time") by discriminate.
    rewrite (dict_get_missing _ _ Hnotin). split; reflexivity. }
  destruct H0; contradiction.
Qed.

(** A dict with a key [save_options] does not know: the call returns with
    the readiness flag cleared, whatever it was, having logged the first
    such key and printed the developer's hint; the entries before that key
    have been stored, the entries after it have not been looked at. *)
Theorem save_options_unknown_key
    (options : OptionsDict) (bot : BotState) (w : World) (key : string) :
  In key (map fst options) -> ~ known_key key ->
  let r := save_options options bot w in
  saved_outcome r = Ret tt /\
  st_options_set (saved_bot r) = false /\
  saved_stdout r = [DEVELOPER_HINT] /\
  exists before k v rest,
    options = before ++ (k, v) :: rest /\
    ~ known_key k /\ Forall known_key (map fst before) /\
    trace (saved_world r) = trace w ++ [ELog ("Unknown option: " +++ k)] /\
    st_running_time (saved_bot r) =
      st_running_time (fst (save_options_loop before bot)) /\
    st_craft_item (saved_bot r) =
      st_craft_item (fst (save_options_loop before bot)).
Proof.
  intros Hin Hk r. subst r. unfold save_options.
  destruct (save_options_loop_has_unknown options bot key Hin Hk) as (bot1 & k & E).
  rewrite E. cbn [saved_outcome saved_bot saved_stdout saved_world st_options_set].
  repeat split.
  destruct (save_options_loop_unknown _ _ _ _ E) as (before & v & rest & Eo & Hnk & Hb & ->).
  exists before, k, v, rest. repeat split; assumption.
Qed.

(** A dict whose keys are all known: the running time becomes
    [options["running_time"]] and the recipe that of
    [options["craft_item"]], each where the key is there.  When the bot
    then has a recipe, the three lines are logged and the readiness flag
    is set.  When it has none -- no recipe was ever chosen, or the chosen
    name is not in the catalog -- the call raises AttributeError after its
    first log line and leaves the readiness flag as it found it. *)
Theorem save_options_known_keys (options : OptionsDict) (bot : BotState) (w : World) :
  Forall known_key (map fst options) -> NoDup (map fst options) ->
  let r := save_options options bot w in
  let running_time' :=
    match dict_get "running_time" options with
    | Some v => v
    | None => st_running_time bot
    end in
  let craft_item' :=
    match dict_get "craft_item" options with
    | Some v => craft_item_of_value v
    | None => st_craft_item bot
    end in
  st_running_time (saved_bot r) = running_time' /\
  st_craft_item (saved_bot r) = craft_item' /\
  saved_stdout r = [] /\
  match craft_item' with
  | Some ci =>
      saved_outcome r = Ret tt /\
      st_options_set (saved_bot r) = true /\
      trace (saved_world r) =
        trace w ++ [ELog ("Running time: " +++ str_of_value running_time' +++ " minutes.");
                    ELog ("Crafting item: " +++ repr_Item (item ci) +++ ".");
                    ELog "Options set successfully."]
  | None =>
      saved_outcome r = Raised AttributeError /\
      st_options_set (saved_bot r) = st_options_set bot /\
      trace (saved_world r) =
        trace w ++ [ELog ("Running time: " +++ str_of_value running_time' +++ " minutes.")]
  end.
Proof.
  intros Hk Hd r rt' ci'. subst r rt' ci'.
  destruct (save_options_loop_fields options bot Hk Hd) as [E1 E2].
  pose proof (save_options_loop_known options bot Hk) as En.
  pose proof (save_options_loop_flag options bot) as Ef.
  unfold save_options.
  destruct (save_options_loop options bot) as [bot1 o]. cbn [fst snd] in *. subst o.
  rewrite <- E1, <- E2.
  destruct (st_craft_item bot1) as [ci|] eqn:Ec;
    cbn [saved_outcome saved_bot saved_stdout saved_world
         st_options_set st_running_time st_craft_item].
  - repeat split; try assumption. cbn. rewrite <- !app_assoc. reflexivity.
  - repeat split; assumption.
Qed.

Lemma save_options_loop_answered options :
  forall bot n,
    (forall e, In e options -> exists spec, In spec create_options /\ allowed_by spec e) ->
    st_running_time bot = VInt n -> 30 <= n <= 720 ->
    (st_craft_item bot = None \/
     exists ci, st_craft_item bot = Some ci /\ materials ci <> []) ->
    (In "craft_item" (map fst options) \/ st_craft_item bot <> None) ->
    let bot1 := fst (save_options_loop options bot) in
    snd (save_options_loop options bot) = None /\
    (exists n1, st_running_time bot1 = VInt n1 /\ 30 <= n1 <= 720) /\
    (exists ci, st_craft_item bot1 = Some ci /\ materials ci <> []).
Proof.
  induction options as [|[k v] rest IH]; intros bot n Ha Hr Hn Hc Hp.
  - cbn. split; [reflexivity|]. split; [eauto|].
    destruct Hp as [[]|Hp]. destruct Hc as [Hc|Hc]; [contradiction | exact Hc].
  - assert (Ha' : forall e, In e rest ->
                  exists spec, In spec create_options /\ allowed_by spec e).
    { intros e He. apply Ha. right. exact He. }
    destruct (Ha (k, v) (or_introl eq_refl)) as (spec & Hs & Hal).
    cbn in Hs. destruct Hs as [<-|[<-|[]]]; cbn in Hal.
    + destruct Hal as (-> & n' & -> & Hn').
      cbn [save_options_loop String.eqb Ascii.eqb Bool.eqb].
      apply (IH _ n'); try assumption; try reflexivity.
      cbn [st_craft_item]. destruct Hp as [[Hp|Hp]|Hp]; [discriminate | left; exact Hp | right; exact Hp].
    + destruct Hal as (-> & s & -> & Hs).
      cbn [save_options_loop String.eqb Ascii.eqb Bool.eqb].
      assert (Hci : exists ci, __init_craft_item s = Some ci /\ materials ci <> []).
      { destruct (__init_craft_item s) as [ci|] eqn:E.
        - exists ci. split; [reflexivity|]. apply (init_craft_item_Some _ _ E).
        - exfalso. revert E. unfold __init_craft_item.
          cbn in Hs. destruct Hs as [<-|[<-|[]]]; cbn; discriminate. }
      destruct Hci as (ci & Eci & Hm).
      apply (IH _ n); try assumption; cbn [st_running_time st_craft_item craft_item_of_value].
      * right. exists ci. split; assumption.
      * right. rewrite Eci. discriminate.
Qed.

(** ** From the options form to the end of the run *)

Lemma main_while_ends_aux fuel ci w0 :
  DEFAULT_RETRY_SECONDS <= Z.of_nat fuel ->
  2 * Z.max 0 (running_time self * 60) + 1 <= Z.of_nat fuel ->
  match main_while fuel ci (last_craft_item_index true ci) (now w0)
          (running_time self * 60) fuel PRE_CRAFT w0 with
  | (Ret _, _) | (Stopped, _) => True
  | _ => False
  end.
Proof.
  intros Hf15 Hf.
  pose proof (main_while_sure fuel ci (last_craft_item_index true ci) (now w0)
                (running_time self * 60) Hf15 fuel
                (Z.to_nat (running_time self * 60)) PRE_CRAFT w0) as Hs.
  destruct (main_while _ _ _ _ _ _ _ _) as [[s| |e|] w1]; try exact I;
    apply Hs; cbn [String.eqb PRE_CRAFT Ascii.eqb Bool.eqb]; lia.
Qed.

Lemma main_loop_stops_aux fuel ci w :
  craft_item self = Some ci -> materials ci <> [] ->
  DEFAULT_RETRY_SECONDS <= Z.of_nat fuel ->
  2 * Z.max 0 (running_time self * 60) + 1 <= Z.of_nat fuel ->
  fst (main_loop fuel w) = Stopped.
Proof.
  intros Hc Hm Hf15 Hf.
  destruct (main_loop_body_enters fuel ci w Hc Hm) as (w0 & E0 & _).
  pose proof (main_while_ends_aux fuel ci w0 Hf15 Hf) as Hs. rewrite <- E0 in Hs.
  unfold main_loop, bind at 1.
  destruct (main_loop_body fuel w) as [[s| |e|] w1]; try reflexivity; destruct Hs.
Qed.

(** Whatever the options form built by [create_options] hands over -- any
    dict whose entries are a position of the slider or a choice of the
    dropdown, with a choice of recipe among them -- [save_options] on a new
    bot accepts: it returns with the readiness flag set, a running time
    between 30 and 720 minutes and a recipe with materials; and
    [main_loop], run on the attributes so saved, raises nothing and ends by
    [stop()]. *)
Theorem options_form_to_stop (options : OptionsDict) (w w1 : World) (fuel : nat) :
  (forall e, In e options -> exists spec, In spec create_options /\ allowed_by spec e) ->
  In "craft_item" (map fst options) ->
  let r := save_options options __init__ w in
  saved_outcome r = Ret tt /\
  st_options_set (saved_bot r) = true /\
  (exists n ci,
     st_running_time (saved_bot r) = VInt n /\ 30 <= n <= 720 /\
     st_craft_item (saved_bot r) = Some ci /\ materials ci <> []) /\
  (options_view (saved_bot r) = Some self ->
   2 * (720 * 60) + 1 <= Z.of_nat fuel ->
   fst (main_loop fuel w1) = Stopped).
Proof.
  intros Ha Hp r. subst r.
  destruct (save_options_loop_answered options __init__ 30 Ha eq_refl ltac:(lia)
              (or_introl eq_refl) (or_introl Hp))
    as (En & (n1 & Er & Hn1) & (ci & Ec & Hm)).
  unfold save_options.
  destruct (save_options_loop options __init__) as [bot1 o]. cbn [fst snd] in *. subst o.
  rewrite Ec. cbn [saved_outcome saved_bot st_options_set st_running_time st_craft_item].
  split; [reflexivity|]. split; [reflexivity|]. split; [eauto 8|].
  unfold options_view. cbn [st_running_time st_craft_item]. rewrite Er.
  intros Hv Hf. inversion Hv as [Hself]. 
  apply (main_loop_stops_aux fuel ci w1).
  - rewrite <- Hself. reflexivity.
  - exact Hm.
  - unfold DEFAULT_RETRY_SECONDS. lia.
  - rewrite <- Hself. cbn [running_time]. lia.
Qed.

(** ** [main_loop] at the edges *)

Lemma main_while_not_entered fuel ci last_index start_time end_time n state w :
  1000 * end_time <= now w - start_time ->
  main_while fuel ci last_index start_time end_time n state w = (Ret state, w).
Proof.
  intros H. apply Z.ltb_ge in H.
  destruct n; cbn [main_while]; unfold bind at 1; cbn [time]; rewrite H; reflexivity.
Qed.

Lemma main_loop_starts fuel w :
  exists w3,
    trace w3 = trace w ++ [ELog "Selecting inventory..."; EMoveTo (CpTab 3); EClick] /\
    calls w3 = (3 + calls w)%nat /\
    main_loop_body fuel w =
    (match craft_item self with
     | None => raise AttributeError
     | Some ci =>
         if Z.of_nat (List.length (materials ci)) =? 0 then raise ZeroDivisionError
         else
           log_msg ("Max craftable: " +++ str_of_Z (max_craftable true ci)) ;;
           start_time <- time ;;
           main_while fuel ci (last_craft_item_index true ci)
             start_time (running_time self * 60) fuel PRE_CRAFT
     end) w3.
Proof.
  eexists. split; [|split; [|reflexivity]].
  - cbn. rewrite <- !app_assoc. reflexivity.
  - reflexivity.
Qed.

(** [main_loop] on a bot that is not configured: with no recipe (the state
    [__init__] leaves, or the state after an unrecognised item name) it
    raises AttributeError, with a recipe without materials it raises
    ZeroDivisionError; either way it has by then selected the inventory
    tab, and it has neither fetched a snapshot nor logged out nor called
    [stop()]. *)
Theorem main_loop_unconfigured_raises (fuel : nat) (w : World) :
  (craft_item self = None \/
   exists ci, craft_item self = Some ci /\ materials ci = []) ->
  let r := main_loop fuel w in
  fst r = Raised (match craft_item self with
                  | None => AttributeError
                  | Some _ => ZeroDivisionError
                  end) /\
  trace (snd r) =
    trace w ++ [ELog "Selecting inventory..."; EMoveTo (CpTab 3); EClick] /\
  calls (snd r) = (3 + calls w)%nat.
Proof.
  intros H r. subst r.
  destruct (main_loop_starts fuel w) as (w3 & Tr & Hc & E).
  assert (Em : main_loop fuel w =
               (Raised (match craft_item self with
                        | None => AttributeError
                        | Some _ => ZeroDivisionError
                        end), w3)).
  { unfold main_loop, bind at 1. rewrite E.
    destruct H as [Hn | (ci & Hs & Hm)].
    - rewrite Hn. reflexivity.
    - rewrite Hs, Hm. reflexivity. }
  rewrite Em. split; [reflexivity|]. split; assumption.
Qed.

(** [main_loop] with a running time of zero (or less): no pass of the loop
    is made -- no snapshot is fetched, nothing is clicked but the inventory
    tab -- and the controller goes straight to progress 1, "Finished.",
    logout and stop, however little fuel the model is given. *)
Theorem main_loop_without_budget (fuel : nat) (ci : CraftItem) (w : World) :
  craft_item self = Some ci -> materials ci <> [] ->
  running_time self <= 0 ->
  let r := main_loop fuel w in
  fst r = Stopped /\
  trace (snd r) =
    trace w ++ [ELog "Selecting inventory..."; EMoveTo (CpTab 3); EClick;
                ELog ("Max craftable: " +++ str_of_Z (max_craftable true ci));
                EProgress 1; ELog "Finished."; ELogout; EStop] /\
  calls (snd r) = (8 + calls w)%nat.
Proof.
  intros Hc Hm Hr r. subst r.
  destruct (main_loop_starts fuel w) as (w3 & Tr & Hcalls & E).
  assert (El : (Z.of_nat (List.length (materials ci)) =? 0) = false).
  { apply Z.eqb_neq. destruct (materials ci); [congruence | cbn; lia]. }
  rewrite Hc, El in E.
  set (w4 := emit (ELog ("Max craftable: " +++ str_of_Z (max_craftable true ci)))
               (tick w3)).
  assert (Eb : main_loop_body fuel w = (Ret PRE_CRAFT, w4)).
  { rewrite E. cbn [bind log_msg act time]. fold w4.
    apply main_while_not_entered. lia. }
  unfold main_loop.
  rewrite (bind_Ret _ (fun _ => update_progress 1 ;; __logout "Finished." ;; stop)
             _ _ _ Eb).
  split; [reflexivity|]. split.
  - cbn. rewrite Tr, <- !app_assoc. reflexivity.
  - cbn. rewrite Hcalls. reflexivity.
Qed.

(** ** How long things take *)

Lemma within_bind_le {A B} d1 d2 d (m : M A) (k : A -> M B) :
  within d1 m -> (forall a, within d2 (k a)) -> 0 <= d2 -> d1 + d2 <= d ->
  within d (bind m k).
Proof.
  intros Hm Hk H2 Hd w. specialize (Hm w). unfold bind.
  destruct (m w) as [[a| |e|] w1]; cbn [snd] in *; try lia.
  specialize (Hk a w1). lia.
Qed.

Lemma within_ret {A} d (a : A) : 0 <= d -> within d (ret a).
Proof. intros Hd w. cbn. lia. Qed.

Lemma within_raise {A} d e : 0 <= d -> within d (@raise A e).
Proof. intros Hd w. cbn. lia. Qed.

Lemma within_time d : 0 <= d -> within d time.
Proof. intros Hd w. cbn. lia. Qed.

Lemma within_sleep d secs : 1000 * secs <= d -> within d (sleep secs).
Proof. intros Hd w. cbn -[Z.mul]. lia. Qed.

Lemma within_le {A} d d' (m : M A) : within d m -> d <= d' -> within d' m.
Proof. intros Hm Hd w. specialize (Hm w). lia. Qed.

(** The loop is left at the first check at or after the deadline: a run
    that timed out has lasted the whole timeout, whatever the callbacks. *)
Lemma retry_loop_None_elapsed {A} `{Truthy A} (probe : M A) onf T fuel :
  forall start w w',
    retry_loop probe onf T fuel start w = (Ret None, w') ->
    1000 * T <= now w' - start.
Proof.
  induction fuel as [|fuel IH]; intros start w w' E; rewrite retry_loop_eq in E;
    destruct (now w - start <? 1000 * T) eqn:Ec; try discriminate.
  - inversion E; subst. apply Z.ltb_ge in Ec. exact Ec.
  - apply bind_Ret_inv in E. destruct E as (r & w1 & _ & E).
    destruct (truthy r); [discriminate|].
    apply bind_Ret_inv in E. destruct E as (u & w2 & _ & E).
    apply bind_Ret_inv in E. destruct E as (u' & w3 & _ & E).
    exact (IH _ _ _ E).
  - inversion E; subst. apply Z.ltb_ge in Ec. exact Ec.
Qed.

Lemma retry_None_elapsed {A} `{Truthy A} (probe : M A) onf T fuel w w' :
  __retry probe onf T fuel w = (Ret None, w') -> 1000 * T <= now w' - now w.
Proof. rewrite retry_eq. apply retry_loop_None_elapsed. Qed.

(** What the driver returns, other than [None], is a truthy answer. *)
Lemma retry_loop_Some_truthy {A} `{Truthy A} (probe : M A) onf T fuel :
  forall start w r w',
    retry_loop probe onf T fuel start w = (Ret (Some r), w') -> truthy r = true.
Proof.
  induction fuel as [|fuel IH]; intros start w r w' E; rewrite retry_loop_eq in E;
    destruct (now w - start <? 1000 * T) eqn:Ec; try discriminate.
  apply bind_Ret_inv in E. destruct E as (r1 & w1 & _ & E).
  destruct (truthy r1) eqn:Ht.
  - inversion E; subst. exact Ht.
  - apply bind_Ret_inv in E. destruct E as (u & w2 & _ & E).
    apply bind_Ret_inv in E. destruct E as (u' & w3 & _ & E).
    exact (IH _ _ _ _ E).
Qed.

Section InstantClient.
(** The client answers every call at once. *)
Hypothesis instant_host : forall k, latency host k = 0%N.

Lemma tick_now w : now (tick w) = now w.
Proof. cbn. rewrite instant_host. lia. Qed.

Lemma instant_act e : instant (act e).
Proof. intros w. eexists _, _. split; [reflexivity|]. apply tick_now. Qed.

Lemma instant_ask {A} (q : nat -> A) : instant (ask q).
Proof. intros w. eexists _, _. split; [reflexivity|]. apply tick_now. Qed.

Lemma instant_ret {A} (a : A) : instant (ret a).
Proof. intros w. eexists _, _. split; reflexivity. Qed.

Lemma instant_bind {A B} (m : M A) (k : A -> M B) :
  instant m -> (forall a, instant (k a)) -> instant (bind m k).
Proof.
  intros Hm Hk w. destruct (Hm w) as (a & w1 & E1 & N1).
  destruct (Hk a w1) as (b & w2 & E2 & N2).
  exists b, w2. rewrite (bind_Ret _ _ _ _ _ E1). split; [exact E2 | lia].
Qed.

Lemma instant_within {A} d (m : M A) : instant m -> 0 <= d -> within d m.
Proof.
  intros Hm Hd w. destruct (Hm w) as (a & w1 & E & N). rewrite E. cbn [snd]. lia.
Qed.

Ltac instant_tac :=
  repeat first
    [ apply instant_ret | apply instant_act | apply instant_ask
    | apply instant_bind; [|intros ?] ].

Lemma logout_now msg w : now (snd (__logout msg w)) = now w.
Proof. cbn. rewrite !instant_host. lia. Qed.

Lemma within_logout d msg : 0 <= d -> within d (__logout msg).
Proof. intros Hd w. rewrite logout_now. lia. Qed.

Lemma within_logout_then {B} d msg (k : unit -> M B) :
  0 <= d -> within d (bind (__logout msg) k).
Proof. intros Hd w. rewrite logout_bind. cbn [snd]. rewrite logout_now. lia. Qed.

(** With callbacks that take no time the clock at the head of a pass is a
    whole number of seconds after the start, so the last pass ends on the
    deadline, not after it. *)
Lemma retry_loop_within {A} `{Truthy A} (probe : M A) onf T :
  instant probe -> instant (recover onf) ->
  forall fuel start w j,
    now w = start + 1000 * j ->
    now (snd (retry_loop probe onf T fuel start w)) <= start + 1000 * Z.max j T.
Proof.
  intros Hp Hr fuel. induction fuel as [|fuel IH]; intros start w j Hj;
    rewrite retry_loop_eq; destruct (now w - start <? 1000 * T) eqn:Ec;
    cbn [snd]; try lia.
  apply Z.ltb_lt in Ec.
  destruct (Hp w) as (r & w1 & E1 & N1). rewrite (bind_Ret _ _ _ _ _ E1).
  destruct (truthy r); [cbn [ret snd]; lia|].
  destruct (Hr w1) as ([] & w2 & E2 & N2). rewrite (bind_Ret _ _ _ _ _ E2).
  cbn [bind sleep].
  specialize (IH start (emit (ESleep 1) (mkWorld (calls w2) (now w2 + 1000 * 1) (trace w2)))
                (j + 1)).
  cbn [now emit] in IH. lia.
Qed.

Lemma retry_within {A} `{Truthy A} (probe : M A) onf T fuel d :
  instant probe -> instant (recover onf) -> 1000 * Z.max 0 T <= d ->
  within d (__retry probe onf T fuel).
Proof.
  intros Hp Hr Hd w. rewrite retry_eq.
  pose proof (retry_loop_within probe onf T Hp Hr fuel (now w) w 0 ltac:(lia)). lia.
Qed.

Ltac within_leaf :=
  first
    [ apply within_ret; lia | apply within_raise; lia | apply within_time; lia
    | apply within_logout; lia | apply within_logout_then; lia
    | apply instant_within; [solve [instant_tac] | lia]
    | apply within_sleep; lia
    | match goal with
      | |- within _ (match ?x with _ => _ end) => destruct x; within_leaf
      end ].

Ltac within_step :=
  match goal with
  | |- within ?d (bind (sleep ?s) _) =>
      apply (within_bind_le (1000 * s) (d - 1000 * s));
      [apply within_sleep; lia | intros ? | lia | lia]
  | |- within ?d (bind (__retry _ _ ?T _) _) =>
      apply (within_bind_le (1000 * Z.max 0 T) (d - 1000 * Z.max 0 T));
      [ apply retry_within;
        [solve [instant_tac] | cbn [recover]; solve [instant_tac] | lia]
      | intros ? | lia | lia ]
  | |- within ?d (bind _ _) =>
      apply (within_bind_le 0 d); [within_leaf | intros ? | lia | lia]
  | |- within _ (match ?x with _ => _ end) => destruct x
  | |- within _ _ => within_leaf
  end.

Lemma click_on_furnace_within : forall fuel, within 30000 (__click_on_furnace fuel).
Proof.
  intros fuel. unfold __click_on_furnace, DEFAULT_RETRY_SECONDS. cbv zeta.
  repeat within_step.
Qed.

Lemma click_on_bank_within : forall fuel, within 30000 (__click_on_bank fuel).
Proof.
  intros fuel. unfold __click_on_bank, DEFAULT_RETRY_SECONDS. cbv zeta.
  repeat within_step.
Qed.

Lemma begin_crafting_within : forall fuel i, within 15000 (__begin_crafting fuel i).
Proof.
  intros fuel i. unfold __begin_crafting, DEFAULT_RETRY_SECONDS. cbv zeta.
  repeat within_step.
Qed.

Lemma withdraw_within ms : within (1000 * Z.of_nat (List.length ms)) (withdraw ms).
Proof.
  induction ms as [|material rest IH]; cbn [withdraw List.length].
  - apply within_ret. lia.
  - rewrite Nat2Z.inj_succ. cbv zeta.
    apply (within_bind_le 0 (1000 * Z.succ (Z.of_nat (List.length rest))));
      [within_leaf | intros _ | lia | lia].
    apply (within_bind_le 0 (1000 * Z.succ (Z.of_nat (List.length rest))));
      [within_leaf | intros mat | lia | lia].
    apply (within_bind_le 1000 (1000 * Z.of_nat (List.length rest)));
      [|intros _; exact IH | lia | lia].
    destruct mat; [repeat within_step | apply within_logout; lia].
Qed.

Lemma exit_bank_within : within 0 __exit_bank.
Proof. unfold __exit_bank. cbv zeta. repeat within_step. Qed.

Lemma report_within start_time end_time : within 1000 (report start_time end_time).
Proof. unfold report. repeat within_step. Qed.

Lemma branches_within fuel ci state lid :
  within (pass_bound ci - 1000) (branches fuel ci state lid).
Proof.
  unfold branches, pass_bound.
  destruct (String.eqb state PRE_CRAFT).
  { destruct (py_eq lid (id (item ci))); [repeat within_step|].
    apply (within_bind_le 30000 15000); [apply click_on_furnace_within | intros f | lia | lia].
    apply (within_bind_le 0 15000); [within_leaf | intros _ | lia | lia].
    apply (within_bind_le 15000 0); [apply begin_crafting_within | intros c | lia | lia].
    apply within_ret. lia. }
  destruct (String.eqb state CRAFT); [repeat within_step|].
  destruct (String.eqb state POST_CRAFT).
  { apply (within_bind_le 30000 10000); [apply click_on_bank_within | intros f | lia | lia].
    repeat within_step. }
  destruct (String.eqb state BANK); [|apply within_ret; lia].
  within_step. within_step.
  apply (within_bind_le 1000 (1000 * Z.of_nat (List.length (materials ci))));
    [apply within_sleep; lia | intros _ | lia | lia].
  apply (within_bind_le (1000 * Z.of_nat (List.length (materials ci))) 0);
    [apply withdraw_within | intros _ | lia | lia].
  apply (within_bind_le 0 0); [apply exit_bank_within | intros _ | lia | lia].
  apply within_ret. lia.
Qed.

Lemma pass_bound_pos ci : 46000 <= pass_bound ci.
Proof. unfold pass_bound. lia. Qed.

Lemma iteration_within fuel ci last_index start_time end_time state :
  within (pass_bound ci) (iteration fuel ci last_index start_time end_time state).
Proof.
  pose proof (pass_bound_pos ci) as Hp. unfold iteration.
  within_step. within_step. within_step.
  apply (within_bind_le (pass_bound ci - 1000) 1000);
    [apply branches_within | intros fl | lia | lia].
  destruct fl as [s|s]; [apply within_ret; lia|].
  apply (within_bind_le 1000 0); [apply report_within | intros _ | lia | lia].
  apply within_ret. lia.
Qed.

(** The loop overruns its budget by less than one pass. *)
Lemma main_while_overshoot fuel ci last_index start_time end_time n :
  forall state w,
    now w - start_time < 1000 * end_time + pass_bound ci ->
    now (snd (main_while fuel ci last_index start_time end_time n state w)) - start_time
    < 1000 * end_time + pass_bound ci.
Proof.
  induction n as [|n IH]; intros state w Hw; cbn [main_while];
    unfold bind at 1; cbn [time];
    destruct (now w - start_time <? 1000 * end_time) eqn:Ec; cbn [snd ret];
    try exact Hw.
  apply Z.ltb_lt in Ec.
  pose proof (iteration_within fuel ci last_index start_time end_time state w) as Hi.
  unfold bind.
  destruct (iteration fuel ci last_index start_time end_time state w)
    as [[st'| |e|] w1]; cbn [snd] in *; try lia.
  apply IH. lia.
Qed.

(** With a client that answers at once, clickFurnace and clickBank end
    within 30 seconds -- the two 15-second timeouts, one after the other --
    and beginCrafting within 15, whether they succeed or not. *)
Theorem primitives_end_within_their_timeouts (fuel : nat) (i : Item) (w : World) :
  now (snd (__click_on_furnace fuel w)) - now w <= 30000 /\
  now (snd (__click_on_bank fuel w)) - now w <= 30000 /\
  now (snd (__begin_crafting fuel i w)) - now w <= 15000.
Proof.
  pose proof (click_on_furnace_within fuel w).
  pose proof (click_on_bank_within fuel w).
  pose proof (begin_crafting_within fuel i w).
  lia.
Qed.

Lemma main_loop_body_enters_now fuel ci w :
  craft_item self = Some ci -> materials ci <> [] ->
  exists w0,
    main_loop_body fuel w =
    main_while fuel ci (last_craft_item_index true ci) (now w0)
      (running_time self * 60) fuel PRE_CRAFT w0 /\
    now w0 = now (tick (tick (tick (tick w)))).
Proof.
  intros Hc Hm. unfold main_loop_body.
  cbn [bind log_msg mouse_move_to mouse_click act calls tick emit].
  rewrite Hc.
  destruct (Z.of_nat (List.length (materials ci)) =? 0) eqn:El.
  - apply Z.eqb_eq in El. destruct (materials ci); [congruence | cbn in El; lia].
  - exists (emit (ELog ("Max craftable: " +++ str_of_Z (max_craftable true ci)))
              (tick (emit EClick
                 (tick (emit (EMoveTo (CpTab 3))
                    (tick (emit (ELog "Selecting inventory...") (tick w)))))))).
    split; reflexivity.
Qed.

Lemma main_loop_final_now fuel w :
  now (snd (main_loop fuel w)) = now (snd (main_loop_body fuel w)).
Proof.
  unfold main_loop, bind at 1.
  destruct (main_loop_body fuel w) as [[s| |e|] w1]; try reflexivity.
  cbn. rewrite !instant_host. lia.
Qed.

(** With a client that answers at once and a running time that is not
    negative, a run of [main_loop] lasts less than its budget and one pass
    of the loop ([pass_bound]: 46 seconds for the recipes of the catalog),
    however it ends; and when the loop is left because the budget has
    elapsed, the run has lasted at least its budget. *)
Theorem run_lasts_budget_and_less_than_a_pass (fuel : nat) (ci : CraftItem) (w : World) :
  craft_item self = Some ci -> materials ci <> [] ->
  0 <= running_time self ->
  let budget := 1000 * (running_time self * 60) in
  now (snd (main_loop fuel w)) - now w < budget + pass_bound ci /\
  (forall state,
     fst (main_loop_body fuel w) = Ret state ->
     budget <= now (snd (main_loop fuel w)) - now w) /\
  ((List.length (materials ci) <= 2)%nat -> pass_bound ci = 46000).
Proof.
  intros Hc Hm Hr budget. subst budget.
  pose proof (pass_bound_pos ci) as Hp.
  rewrite main_loop_final_now.
  split; [|split].
  - destruct (main_loop_body_enters_now fuel ci w Hc Hm) as (w0 & E0 & N0).
    rewrite !tick_now in N0. rewrite E0.
    pose proof (main_while_overshoot fuel ci (last_craft_item_index true ci) (now w0)
                  (running_time self * 60) fuel PRE_CRAFT w0 ltac:(lia)).
    lia.
  - intros state E.
    destruct (main_loop_body fuel w) as [o w1] eqn:Eb. cbn [fst snd] in *. subst o.
    destruct (main_loop_body_Ret_inv _ _ _ _ Eb) as (ci' & w0 & _ & _ & L0 & Ew).
    apply main_while_elapsed in Ew. lia.
  - intros Hl. unfold pass_bound. lia.
Qed.

End InstantClient.

(** ** When a primitive gives up *)

Lemma retry_tame_mono {A} `{Truthy A} (probe : M A) onf T fuel w r w' :
  tame (fun _ => True) probe -> tame (fun _ => True) (recover onf) ->
  __retry probe onf T fuel w = (Ret r, w') -> now w <= now w'.
Proof.
  intros Hp Hr E. refine (tame_mono (fun _ => True) _ _ _ _ _ E).
  apply tame_retry; [exact Hp | exact Hr | exact I].
Qed.

(** The search-then-verify shape shared by clickFurnace and clickBank. *)
Lemma find_and_confirm_false fuel c msg text tc msg2 w w' :
  (r <- __retry (get_nearest_tag c) (Some (log_msg msg ;; move_camera 90))
          DEFAULT_RETRY_SECONDS fuel ;;
   match r with
   | Some (Some obj) =>
       v <- __retry (mouse_move_to (ObjRegion obj) ;; mouseover_text text tc) None
              DEFAULT_RETRY_SECONDS fuel ;;
       if truthy v then mouse_click ;; ret true
       else log_msg msg2 ;; ret false
   | _ => ret false
   end) w = (Ret false, w') ->
  1000 * DEFAULT_RETRY_SECONDS <= now w' - now w.
Proof.
  intros E. apply bind_Ret_inv in E. destruct E as (r & w1 & E1 & E).
  destruct r as [[obj|]|].
  - assert (L1 : now w <= now w1).
    { refine (retry_tame_mono _ _ _ _ _ _ _ _ _ E1); cbn [recover]; tame_tac. }
    apply bind_Ret_inv in E. destruct E as (v & w2 & E2 & E).
    destruct v as [b|].
    + pose proof (retry_loop_Some_truthy _ _ _ _ _ _ _ _ E2) as Hb.
      change (truthy (Some b)) with (truthy b) in E. rewrite Hb in E.
      cbn in E. discriminate.
    + apply retry_None_elapsed in E2.
      cbn [truthy Truthy_option] in E.
      assert (L2 : now w2 <= now w').
      { refine (tame_mono (fun _ => True) _ _ _ _ _ E). tame_tac. }
      lia.
  - pose proof (retry_loop_Some_truthy _ _ _ _ _ _ _ _ E1) as Hb. discriminate.
  - apply retry_None_elapsed in E1. inversion E; subst. exact E1.
Qed.

(** clickFurnace and clickBank report failure only after a full timeout
    of 15 seconds has run out, whatever the client does; beginCrafting
    reports failure either at once, when its single look for the craft
    button finds none (it has then not moved the pointer), or after its
    15 seconds of hover verification have run out. *)
Theorem primitives_give_up_only_after_timeout (fuel : nat) (i : Item) (w w' : World) :
  (__click_on_furnace fuel w = (Ret false, w') -> 15000 <= now w' - now w) /\
  (__click_on_bank fuel w = (Ret false, w') -> 15000 <= now w' - now w) /\
  (__begin_crafting fuel i w = (Ret false, w') ->
   (nearest_tag host (S (calls w)) GREEN = None /\
    trace w' = trace w ++ [ELog ("Crafting " +++ repr_Item i +++ ".");
                           ELog ("Craft button for " +++ repr_Item i +++ " not found.")])
   \/ 15000 <= now w' - now w).
Proof.
  split; [|split].
  - intros E. apply find_and_confirm_false in E. unfold DEFAULT_RETRY_SECONDS in E. lia.
  - intros E. apply find_and_confirm_false in E. unfold DEFAULT_RETRY_SECONDS in E. lia.
  - unfold __begin_crafting. cbn [bind log_msg act get_nearest_tag ask calls tick emit].
    destruct (nearest_tag host (S (calls w)) GREEN) as [btn|].
    + intros E. right.
      apply bind_Ret_inv in E. destruct E as (v & w2 & E2 & E).
      assert (L0 : now w <= now (tick (emit (ELog ("Crafting " +++ repr_Item i +++ ".")) (tick w)))).
      { cbn. lia. }
      destruct v as [b|].
      * pose proof (retry_loop_Some_truthy _ _ _ _ _ _ _ _ E2) as Hb.
        change (truthy (Some b)) with (truthy b) in E. rewrite Hb in E.
        cbn in E. discriminate.
      * apply retry_None_elapsed in E2. cbn [truthy Truthy_option] in E.
        assert (L2 : now w2 <= now w').
        { refine (tame_mono (fun _ => True) _ _ _ _ _ E). tame_tac. }
        unfold DEFAULT_RETRY_SECONDS in E2. lia.
    + intros E. left. split; [reflexivity|].
      inversion E; subst. cbn. rewrite <- !app_assoc. reflexivity.
Qed.

(** ** The order of the phases *)



(** ** Withdrawing the materials *)

(** The withdrawal loop takes the materials in recipe order.  Either the
    image of every material is found, and each is clicked once, with a
    second of sleep after it; or the loop ends in the fatal handler at the
    first material whose image is not found, the materials before it having
    been clicked and none after it searched for. *)
Theorem withdraw_in_recipe_order (ms : list Item) (w : World) :
  let r := withdraw ms w in
  (exists rects,
     List.length rects = List.length ms /\
     fst r = Ret tt /\
     trace (snd r) = trace w ++ flat_map withdrawal_events (combine ms rects)) \/
  (exists before material rest rects,
     ms = before ++ material :: rest /\
     List.length rects = List.length before /\
     fst r = Stopped /\
     trace (snd r) =
       trace w ++ flat_map withdrawal_events (combine before rects)
         ++ ELog ("Searching for " +++ name material +++ "... ("
                  +++ (replace_space (name material) +++ ".png") +++ ")")
         :: fatal_events ("Material " +++ name material +++ " not found.")).
Proof.
  revert w. induction ms as [|material rest IH]; intros w.
  - left. exists []. cbn. rewrite app_nil_r. repeat split.
  - set (wq := tick (emit (ELog ("Searching for " +++ name material +++ "... ("
                                 +++ (replace_space (name material) +++ ".png") +++ ")"))
                       (tick w))).
    destruct (image_in_rect host (S (calls w))
                ("items/" +++ replace_space (name material) +++ ".png")
                (game_view host) (1 # 2)) as [rect|] eqn:Hi.
    + set (w1 := snd (sleep 1 (snd (mouse_click (snd (mouse_move_to (RectRegion rect) wq)))))).
      assert (Ew : withdraw (material :: rest) w = withdraw rest w1).
      { cbn [withdraw bind log_msg act search_img_in_rect ask calls tick emit].
        rewrite Hi. reflexivity. }
      assert (Tr : trace w1 = trace w ++ withdrawal_events (material, rect)).
      { cbn. rewrite <- !app_assoc. reflexivity. }
      cbv zeta. rewrite Ew.
      destruct (IH w1) as [(rects & Hl & Hf & Ht)
                          |(before & m & rest' & rects & -> & Hl & Hf & Ht)].
      * left. exists (rect :: rects). cbn [List.length]. split; [lia|].
        split; [exact Hf|]. rewrite Ht, Tr. cbn [combine flat_map].
        rewrite <- !app_assoc. reflexivity.
      * right. exists (material :: before), m, rest', (rect :: rects).
        cbn [List.length]. split; [reflexivity|]. split; [lia|].
        split; [exact Hf|]. rewrite Ht, Tr. cbn [combine flat_map].
        rewrite <- !app_assoc. reflexivity.
    + right. exists [], material, rest, []. cbn [List.length app combine flat_map].
      split; [reflexivity|]. split; [reflexivity|].
      assert (Ew : withdraw (material :: rest) w =
                   (Stopped, snd (__logout ("Material " +++ name material +++ " not found.") wq))).
      { cbn [withdraw bind log_msg act search_img_in_rect ask calls tick emit].
        rewrite Hi. reflexivity. }
      cbv zeta. rewrite Ew. split; [reflexivity|].
      cbn. rewrite <- !app_assoc. reflexivity.
Qed.

(** ** The batch and the designated slot, for any recipe *)

(** For a recipe with materials, [max_craftable] is the largest number of
    crafts whose materials fit in the available slots; the designated slot
    index is never the slot kept for the mould or beyond it, and it is an
    inventory index (not negative) exactly when one craft's materials fit
    in the inventory at all. *)
Theorem batch_fits_inventory (use_mould : bool) (ci : CraftItem) :
  materials ci <> [] ->
  let slots := available_slots use_mould in
  let per_craft := Z.of_nat (List.length (materials ci)) in
  max_craftable use_mould ci * per_craft <= slots < (max_craftable use_mould ci + 1) * per_craft /\
  -1 <= last_craft_item_index use_mould ci < slots /\
  (0 <= last_craft_item_index use_mould ci <-> per_craft <= slots).
Proof.
  intros Hm slots per_craft.
  assert (Hp : 0 < per_craft).
  { subst per_craft. destruct (materials ci); [congruence | cbn; lia]. }
  assert (Hs : 27 <= slots <= 28).
  { subst slots. unfold available_slots. destruct use_mould; lia. }
  unfold last_craft_item_index, max_craftable. fold slots per_craft.
  pose proof (Z.div_mod slots per_craft ltac:(lia)) as Hdm.
  pose proof (Z.mod_pos_bound slots per_craft Hp) as Hmb.
  assert (Hq : 0 <= slots / per_craft) by (apply Z.div_pos; lia).
  assert (Hu : slots / per_craft <= slots).
  { apply Z.div_le_upper_bound; nia. }
  split; [nia|]. split; [lia|].
  split; intros H.
  - assert (1 <= slots / per_craft) by lia. nia.
  - assert (1 <= slots / per_craft); [|lia].
    apply Z.div_le_lower_bound; lia.
Qed.

(** ** The pre-craft phase *)


(** ** What the search for an object leaves in the trace *)

Lemma plain_steady {A} evs (m : M A) : plain evs m -> steady m.
Proof.
  intros Hm w. destruct (Hm w) as (a & w' & E & L & _). exists a, w'. split; assumption.
Qed.

Lemma plain_ret {A} (a : A) : plain [] (ret a).
Proof.
  intros w. exists a, w. rewrite app_nil_r. repeat split. lia.
Qed.

Lemma plain_ask {A} (q : nat -> A) : plain [] (ask q).
Proof.
  intros w. eexists _, _. split; [reflexivity|]. cbn. rewrite app_nil_r.
  split; [lia | reflexivity].
Qed.

Lemma plain_act e : plain [e] (act e).
Proof.
  intros w. eexists _, _. split; [reflexivity|]. cbn. split; [lia | reflexivity].
Qed.

Lemma plain_bind {A B} e1 e2 (m : M A) (k : A -> M B) :
  plain e1 m -> (forall a, plain e2 (k a)) -> plain (e1 ++ e2) (bind m k).
Proof.
  intros Hm Hk w. destruct (Hm w) as (a & w1 & E1 & L1 & T1).
  destruct (Hk a w1) as (b & w2 & E2 & L2 & T2).
  exists b, w2. rewrite (bind_Ret _ _ _ _ _ E1).
  split; [exact E2|]. split; [lia|]. rewrite T2, T1, app_assoc. reflexivity.
Qed.

Lemma rounds_S evs k : rounds evs (S k) = evs ++ rounds evs k.
Proof. reflexivity. Qed.

Section PlainRetry.
Context {A : Type} `{Truthy A}.
Variable probe : M A.
Variable onf : option (M unit).
Variable T : Z.
Variables pe re : list Event.
Hypothesis plain_probe : plain pe probe.
Hypothesis plain_recover : plain re (recover onf).

Lemma failed_pass_trace start w w' :
  failed_pass probe onf T start w w' ->
  trace w' = trace w ++ pe ++ re ++ [ESleep 1].
Proof.
  intros [_ (r & w1 & w2 & E1 & _ & E2 & ->)].
  apply recover_run in E2.
  destruct (plain_probe w) as (a & x & Ex & _ & Tx).
  assert (x = w1) by congruence. subst x.
  destruct (plain_recover w1) as (b & y & Ey & _ & Ty).
  assert (y = w2) by congruence. subst y.
  cbn. rewrite Ty, Tx, <- !app_assoc. reflexivity.
Qed.

Lemma failed_passes_trace start k w wk :
  failed_passes probe onf T start k w wk ->
  trace wk = trace w ++ rounds (pe ++ re ++ [ESleep 1]) k.
Proof.
  induction 1 as [w | k w w' w'' Hp _ IH].
  - cbn. rewrite app_nil_r. reflexivity.
  - rewrite IH, (failed_pass_trace _ _ _ Hp), rounds_S, <- !app_assoc. reflexivity.
Qed.

(** A run of the driver with plain callbacks: some passes, each leaving
    the probe's events, the recovery's and a sleep; then either the
    timeout, or one more probe, the one that succeeds. *)
Lemma retry_plain_run fuel w :
  T <= Z.of_nat fuel ->
  exists k wk,
    Z.of_nat k <= Z.max 0 T /\ now w <= now wk /\
    trace wk = trace w ++ rounds (pe ++ re ++ [ESleep 1]) k /\
    (__retry probe onf T fuel w = (Ret None, wk) \/
     exists r w',
       truthy r = true /\ now wk <= now w' /\ trace w' = trace wk ++ pe /\
       __retry probe onf T fuel w = (Ret (Some r), w')).
Proof.
  intros Hf.
  pose proof (plain_steady _ _ plain_probe) as Sp.
  pose proof (plain_steady _ _ plain_recover) as Sr.
  destruct (retry_loop_ends probe onf T (now w) Sp Sr (Z.to_nat T) w)
    as (k & wk & Hk & Hps & Hend); [lia|].
  pose proof (failed_passes_elapsed _ _ _ _ _ _ _ Sp Sr Hps) as Hel.
  exists k, wk. split; [lia|]. split; [lia|].
  split; [exact (failed_passes_trace _ _ _ _ Hps)|].
  destruct Hend as [Hout | (Hin & r & w' & E & Ht)].
  - left. apply (retry_times_out _ _ _ k); [exact Hps | exact Hout | lia].
  - right. exists r, w'. split; [exact Ht|].
    destruct (plain_probe wk) as (a & x & Ex & Lx & Tx).
    assert (x = w') by congruence. subst x.
    split; [exact Lx|]. split; [exact Tx|].
    apply (retry_succeeds _ _ _ k w wk); try assumption. lia.
Qed.
End PlainRetry.

Lemma find_and_confirm_trace fuel c msg text tc msg2 w :
  DEFAULT_RETRY_SECONDS <= Z.of_nat fuel ->
  let m :=
    r <- __retry (get_nearest_tag c) (Some (log_msg msg ;; move_camera 90))
           DEFAULT_RETRY_SECONDS fuel ;;
    match r with
    | Some (Some obj) =>
        v <- __retry (mouse_move_to (ObjRegion obj) ;; mouseover_text text tc) None
               DEFAULT_RETRY_SECONDS fuel ;;
        if truthy v then mouse_click ;; ret true
        else log_msg msg2 ;; ret false
    | _ => ret false
    end in
  exists k1,
    (k1 <= 15)%nat /\
    let search := rounds [ELog msg; EMoveCamera 90; ESleep 1] k1 in
    (fst (m w) = Ret false /\ trace (snd (m w)) = trace w ++ search) \/
    exists obj k2,
      (k2 <= 15)%nat /\
      let hover := rounds [EMoveTo (ObjRegion obj); ESleep 1] k2 in
      (fst (m w) = Ret true /\
       trace (snd (m w)) =
         trace w ++ search ++ hover ++ [EMoveTo (ObjRegion obj); EClick]) \/
      (fst (m w) = Ret false /\
       trace (snd (m w)) = trace w ++ search ++ hover ++ [ELog msg2]).
Proof.
  intros Hf m. subst m.
  destruct (retry_plain_run (get_nearest_tag c) (Some (log_msg msg ;; move_camera 90))
              DEFAULT_RETRY_SECONDS [] [ELog msg; EMoveCamera 90]
              (plain_ask _)
              (plain_bind [ELog msg] [EMoveCamera 90] _ _ (plain_act _) (fun _ => plain_act _))
              fuel w Hf)
    as (k1 & wk & Hk1 & _ & Tk & [E1 | (r & w1 & Ht & _ & T1 & E1)]).
  - exists k1. split; [unfold DEFAULT_RETRY_SECONDS in Hk1; lia|].
    left. rewrite (bind_Ret _ _ _ _ _ E1). cbn [ret fst snd].
    split; [reflexivity | exact Tk].
  - destruct r as [obj|]; [|discriminate].
    rewrite app_nil_r in T1.
    exists k1. split; [unfold DEFAULT_RETRY_SECONDS in Hk1; lia|].
    right. rewrite (bind_Ret _ _ _ _ _ E1).
    destruct (retry_plain_run (mouse_move_to (ObjRegion obj) ;; mouseover_text text tc)
                None DEFAULT_RETRY_SECONDS [EMoveTo (ObjRegion obj)] []
                (plain_bind [EMoveTo (ObjRegion obj)] [] _ _ (plain_act _) (fun _ => plain_ask _))
                (plain_ret tt) fuel w1 Hf)
      as (k2 & wk2 & Hk2 & _ & Tk2 & [E2 | (v & w2 & Hv & _ & T2 & E2)]).
    + exists obj, k2. split; [unfold DEFAULT_RETRY_SECONDS in Hk2; lia|].
      right. rewrite (bind_Ret _ _ _ _ _ E2).
      cbn [truthy Truthy_option bind log_msg act ret fst snd trace emit tick].
      split; [reflexivity|]. rewrite Tk2, T1, Tk, <- !app_assoc. reflexivity.
    + exists obj, k2. split; [unfold DEFAULT_RETRY_SECONDS in Hk2; lia|].
      left. rewrite (bind_Ret _ _ _ _ _ E2).
      change (truthy (Some v)) with (truthy v). rewrite Hv.
      cbn [bind mouse_click act ret fst snd trace emit tick].
      split; [reflexivity|]. rewrite T2, Tk2, T1, Tk, <- !app_assoc. reflexivity.
Qed.

(** ** The click behind the hover check *)

Lemma count_rounds p evs k : count p evs = O -> count p (rounds evs k) = O.
Proof.
  intros E. induction k as [|k IH]; [reflexivity|].
  rewrite rounds_S, count_app, E, IH. reflexivity.
Qed.

(** A run of the driver with plain callbacks ends at the timeout or at the
    probe call that succeeds. *)
Lemma retry_plain_ends {A} `{Truthy A} (probe : M A) (onf : option (M unit)) T pe re fuel w :
  plain pe probe -> plain re (recover onf) ->
  T <= Z.of_nat fuel ->
  exists k wk,
    trace wk = trace w ++ rounds (pe ++ re ++ [ESleep 1]) k /\
    (__retry probe onf T fuel w = (Ret None, wk) \/
     exists r w',
       truthy r = true /\ probe wk = (Ret r, w') /\
       __retry probe onf T fuel w = (Ret (Some r), w')).
Proof.
  intros Pp Pr Hf.
  pose proof (plain_steady _ _ Pp) as Sp.
  pose proof (plain_steady _ _ Pr) as Sr.
  destruct (retry_loop_ends probe onf T (now w) Sp Sr (Z.to_nat T) w)
    as (k & wk & Hk & Hps & Hend); [lia|].
  pose proof (failed_passes_elapsed _ _ _ _ _ _ _ Sp Sr Hps) as Hel.
  exists k, wk.
  split; [exact (failed_passes_trace probe onf T pe re Pp Pr _ _ _ _ Hps)|].
  destruct Hend as [Hout | (Hin & r & w' & E & Ht)].
  - left. apply (retry_times_out _ _ _ k); [exact Hps | exact Hout | lia].
  - right. exists r, w'. split; [exact Ht|]. split; [exact E|].
    apply (retry_succeeds _ _ _ k w wk); try assumption. lia.
Qed.

(** The end common to the three primitives comes out true only through a
    hover question answered yes, with the click right behind it. *)
Lemma confirm_true fuel o text c msg w w' :
  DEFAULT_RETRY_SECONDS <= Z.of_nat fuel ->
  (v <- __retry (mouse_move_to (ObjRegion o) ;; mouseover_text text c) None
          DEFAULT_RETRY_SECONDS fuel ;;
   if truthy v then mouse_click ;; ret true
   else log_msg msg ;; ret false) w = (Ret true, w') ->
  exists w1 pre,
    trace w1 = trace w ++ pre /\ count is_click pre = O /\
    hover_text host (S (calls w1)) text c = true /\
    w' = emit EClick (tick (tick (emit (EMoveTo (ObjRegion o)) (tick w1)))).
Proof.
  intros Hf E.
  destruct (retry_plain_ends (mouse_move_to (ObjRegion o) ;; mouseover_text text c)
              None DEFAULT_RETRY_SECONDS [EMoveTo (ObjRegion o)] [] fuel w
              (plain_bind [EMoveTo (ObjRegion o)] [] _ _ (plain_act _) (fun _ => plain_ask _))
              (plain_ret tt) Hf)
    as (k & wk & Tk & [E2 | (v & w2 & Hv & Ep & E2)]);
    rewrite (bind_Ret _ _ _ _ _ E2) in E.
  - cbn in E. discriminate E.
  - change (truthy (Some v)) with (truthy v) in E. rewrite Hv in E.
    cbn [bind mouse_click act ret] in E.
    cbn [bind mouse_move_to act mouseover_text ask calls emit tick] in Ep.
    unfold mouseover_text, ask in Ep. cbn [calls emit tick] in Ep.
    injection Ep as Ev Ew. unfold ret in E. injection E as Ew'.
    subst w2 w'.
    exists wk, (rounds ([EMoveTo (ObjRegion o)] ++ [] ++ [ESleep 1]) k).
    split; [exact Tk|]. split; [apply count_rounds; reflexivity|].
    split; [|reflexivity].
    rewrite Ev. exact Hv.
Qed.

Lemma verified_click_intro text c (m : M bool) w :
  clicks_iff_true m ->
  (forall w',
     m w = (Ret true, w') ->
     exists obj w1 pre,
       trace w1 = trace w ++ pre /\ count is_click pre = O /\
       hover_text host (S (calls w1)) text c = true /\
       w' = emit EClick (tick (tick (emit (EMoveTo (ObjRegion obj)) (tick w1))))) ->
  verified_click text c m w.
Proof.
  intros Hc Ht.
  destruct (Hc w) as (b & w' & evs & E & _ & Tr & Hb).
  exists b, w', evs. split; [exact E|]. split; [exact Tr|]. split.
  - destruct b.
    + destruct Hb as (pre & -> & Fp).
      rewrite count_app, (count_idle_click _ Fp). reflexivity.
    + apply count_idle_click, Hb.
  - intros ->. destruct (Ht w' E) as (obj & w1 & pre & T1 & Cp & Hh & Ew).
    exists obj, w1, pre. repeat split; try assumption.
    apply (app_inv_head (trace w)). rewrite <- Tr, Ew.
    cbn [trace emit tick]. rewrite T1, <- !app_assoc. reflexivity.
Qed.

Lemma find_then_confirm_true fuel c msg text tc msg2 w w' :
  DEFAULT_RETRY_SECONDS <= Z.of_nat fuel ->
  (r <- __retry (get_nearest_tag c) (Some (log_msg msg ;; move_camera 90))
          DEFAULT_RETRY_SECONDS fuel ;;
   match r with
   | Some (Some obj) =>
       v <- __retry (mouse_move_to (ObjRegion obj) ;; mouseover_text text tc) None
              DEFAULT_RETRY_SECONDS fuel ;;
       if truthy v then mouse_click ;; ret true
       else log_msg msg2 ;; ret false
   | _ => ret false
   end) w = (Ret true, w') ->
  exists obj w1 pre,
    trace w1 = trace w ++ pre /\ count is_click pre = O /\
    hover_text host (S (calls w1)) text tc = true /\
    w' = emit EClick (tick (tick (emit (EMoveTo (ObjRegion obj)) (tick w1)))).
Proof.
  intros Hf E.
  destruct (quiet_find_tag fuel c msg Hf w) as (r & w0 & E0 & _ & evs0 & T0 & F0).
  rewrite (bind_Ret _ _ _ _ _ E0) in E.
  destruct r as [[obj|]|]; try discriminate E.
  destruct (confirm_true _ _ _ _ _ _ _ Hf E) as (w1 & pre & T1 & Cp & Hh & Ew).
  exists obj, w1, (evs0 ++ pre).
  split; [rewrite T1, T0, app_assoc; reflexivity|].
  split; [rewrite count_app, (count_idle_click _ F0), Cp; reflexivity|].
  split; assumption.
Qed.

Lemma begin_crafting_true fuel i w w' :
  DEFAULT_RETRY_SECONDS <= Z.of_nat fuel ->
  __begin_crafting fuel i w = (Ret true, w') ->
  exists obj w1 pre,
    trace w1 = trace w ++ pre /\ count is_click pre = O /\
    hover_text host (S (calls w1)) (name i) OFF_ORANGE = true /\
    w' = emit EClick (tick (tick (emit (EMoveTo (ObjRegion obj)) (tick w1)))).
Proof.
  intros Hf E. unfold __begin_crafting in E.
  cbn [bind log_msg act get_nearest_tag ask] in E.
  destruct (nearest_tag host _ GREEN) as [btn|]; [|discriminate E].
  destruct (confirm_true _ _ _ _ _ _ _ Hf E) as (w1 & pre & T1 & Cp & Hh & Ew).
  exists btn, w1, ([ELog ("Crafting " +++ repr_Item i +++ ".")] ++ pre).
  split; [rewrite T1; cbn [trace emit tick]; rewrite <- app_assoc; reflexivity|].
  split; [rewrite count_app, Cp; reflexivity|].
  split; assumption.
Qed.

(** C9.  clickFurnace, clickBank and beginCrafting always return a boolean.
    A run that returns false has not clicked at all.  A run that returns
    true has clicked exactly once, as its last action, and only behind a
    successful hover-text verification: the two calls before the click
    are the move of the pointer to the object and the hover question --
    "Smelt" in off-white for the furnace, "Bank" in off-white for the
    bank, the item's name in off-orange for the craft button -- which the
    client answered yes. *)
Theorem primitives_click_once_iff_success (fuel : nat) (i : Item) (w : World) :
  DEFAULT_RETRY_SECONDS <= Z.of_nat fuel ->
  verified_click "Smelt" OFF_WHITE (__click_on_furnace fuel) w /\
  verified_click "Bank" OFF_WHITE (__click_on_bank fuel) w /\
  verified_click (name i) OFF_ORANGE (__begin_crafting fuel i) w.
Proof.
  intros Hf. split; [|split]; apply verified_click_intro.
  - apply click_on_furnace_clicks, Hf.
  - intros w'. apply find_then_confirm_true, Hf.
  - apply click_on_bank_clicks, Hf.
  - intros w'. apply find_then_confirm_true, Hf.
  - apply begin_crafting_clicks, Hf.
  - intros w'. apply begin_crafting_true, Hf.
Qed.

(** What clickFurnace and clickBank do, step by step.  While the object
    is not detected, each attempt is followed by a log line, a turn of the
    camera by 90 degrees and a second of sleep, at most 15 times; if the
    object is never detected the primitive returns false, silently.  Once
    it is detected the camera is not turned again: the pointer is sent to
    that object, again and again with a second of sleep in between, at most
    15 times, until the hover text is seen -- then one click, and true --
    or the time is up -- then the log line, and false. *)
Theorem furnace_and_bank_search_trace (fuel : nat) (w : World) :
  DEFAULT_RETRY_SECONDS <= Z.of_nat fuel ->
  searches_then_confirms (__click_on_furnace fuel)
    "Furnace obj not found... Trying again." "Could not find furnace." w /\
  searches_then_confirms (__click_on_bank fuel)
    "Bank obj not found... Trying again." "Could not find bank." w.
Proof.
  intros Hf. split.
  - exact (find_and_confirm_trace fuel PINK _ "Smelt" OFF_WHITE _ w Hf).
  - exact (find_and_confirm_trace fuel RED _ "Bank" OFF_WHITE _ w Hf).
Qed.

End Bot.

(** * Concrete runs *)

Example catalog_ring :
  __init_craft_item osrs_ids "Sapphire ring" = Some sapphire_ring /\
  materials sapphire_ring = [mkItem "Gold bar" 2357; mkItem "Sapphire" 1607].
Proof. split; reflexivity. Qed.

Example catalog_amulet :
  __init_craft_item osrs_ids "Gold amulet (u)" = Some gold_amulet /\
  materials gold_amulet = [mkItem "Gold bar" 2357].
Proof. split; reflexivity. Qed.

Example catalog_unknown : __init_craft_item osrs_ids "Gold ring" = None.
Proof. reflexivity. Qed.

Example file_name_of_gold_bar : replace_space "Gold bar" +++ ".png" = "Gold_bar.png".
Proof. reflexivity. Qed.

Example retry_gives_up_after_15_passes :
  let r := __retry (get_nearest_tag blind_host PINK) None 15 15 w_init in
  fst r = Ret None /\ now (snd r) = 15000 /\ calls (snd r) = 15%nat.
Proof. vm_compute. repeat split. Qed.

Example furnace_clicked_once :
  let r := __click_on_furnace ring_host 15 w_init in
  fst r = Ret true /\
  trace (snd r) = [EMoveTo (ObjRegion (Obj 0)); EClick].
Proof. vm_compute. split; reflexivity. Qed.

(** C5 (amended) at a probe that never finds the furnace, with the camera
    turned between attempts and the default timeout. *)
Lemma retry_driver_contract_witness :
  let probe := get_nearest_tag blind_host PINK in
  let onf := Some (move_camera blind_host 90) in
  exists k wk,
    failed_passes probe onf 15 (now w_init) k w_init wk /\
    Z.of_nat k <= Z.max 0 15 /\
    ((exists r w',
        now wk - now w_init < 1000 * 15 /\
        probe wk = (Ret r, w') /\ truthy r = true /\
        __retry probe onf 15 15 w_init = (Ret (Some r), w'))
     \/
     (__retry probe onf 15 15 w_init = (Ret None, wk) /\
      1000 * 15 <= now wk - now w_init /\
      (forall d,
         callbacks_within probe onf d -> 0 <= d -> 0 <= 15 ->
         now wk - now w_init < 1000 * 15 + 1000 + d))).
Proof.
  apply (retry_driver_contract (get_nearest_tag blind_host PINK)
           (Some (move_camera blind_host 90)) 15 15 w_init).
  - intros w. eexists _, _. split; [reflexivity|]. cbn. lia.
  - intros f E w. inversion E; subst f.
    eexists _, _. split; [reflexivity|]. cbn. lia.
  - lia.
Defined.

(** In that client the callbacks take no time, so the driver gives up
    within one poll interval of its 15 seconds: here after exactly 15. *)
Example blind_callbacks_take_no_time :
  callbacks_within (get_nearest_tag blind_host PINK)
    (Some (move_camera blind_host 90)) 0.
Proof.
  intros w r w1 w2 E1 E2. inversion E1. inversion E2. subst. cbn. lia.
Qed.

(** The camera is turned once after each of the fifteen unsuccessful
    looks, before the sleep. *)
Example blind_retry_turns_the_camera :
  let r := __retry (get_nearest_tag blind_host PINK)
             (Some (move_camera blind_host 90)) 15 15 w_init in
  fst r = Ret None /\
  trace (snd r) = rounds [EMoveCamera 90; ESleep 1] 15.
Proof. vm_compute. split; reflexivity. Qed.

(** C5 as stated fails: a probe that takes two and a half seconds to
    answer, with no recovery action and the default timeout of 15 seconds.
    The passes begin at 0, 3.5, 7, 10.5 and 14 seconds; the last one begins
    inside the window and ends at 17.5 seconds, so the driver returns None
    two and a half seconds after the deadline, more than one poll interval
    late. *)
Lemma slow_probe_overruns_the_poll_interval :
  let r := __retry (get_nearest_tag slow_host PINK) None 15 15 w_init in
  fst r = Ret None /\
  now (snd r) - now w_init = 17500 /\
  calls (snd r) = 5%nat /\
  ~ now (snd r) - now w_init < 1000 * 15 + 1000.
Proof.
  cbv zeta. repeat split; try (vm_compute; reflexivity).
  vm_compute. intros E. discriminate E.
Qed.

(** C9 in the cooperative client, for the sapphire ring. *)
Lemma primitives_click_once_iff_success_witness :
  verified_click ring_host "Smelt" OFF_WHITE (__click_on_furnace ring_host 15) w_init /\
  verified_click ring_host "Bank" OFF_WHITE (__click_on_bank ring_host 15) w_init /\
  verified_click ring_host "Sapphire ring" OFF_ORANGE
    (__begin_crafting ring_host 15 (mkItem "Sapphire ring" 1637)) w_init.
Proof.
  apply (primitives_click_once_iff_success ring_host 15 (mkItem "Sapphire ring" 1637) w_init).
  unfold DEFAULT_RETRY_SECONDS. lia.
Defined.

(** Where the furnace is shown but the hover text never is, clickFurnace
    sends the pointer to it fifteen times and gives up without a click. *)
Example no_hover_text_no_click :
  let r := __click_on_furnace mute_host 15 w_init in
  fst r = Ret false /\
  trace (snd r) =
    rounds [EMoveTo (ObjRegion (Obj 0)); ESleep 1] 15 ++ [ELog "Could not find furnace."] /\
  count is_click (trace (snd r)) = O.
Proof. vm_compute. repeat split. Qed.


Example craft_to_post_craft :
  fst (iteration ring_host 15 sapphire_ring 12 0 1800 CRAFT w_init) = Ret POST_CRAFT.
Proof. vm_compute. reflexivity. Qed.

(** C7 at an empty inventory, in the craft phase. *)
Lemma missing_slot_is_fatal_witness :
  let r := iteration blind_host 15 sapphire_ring 12 0 1800 CRAFT w_init in
  fst r = Stopped /\
  trace (snd r) =
    trace w_init ++ [ELog ("State: " +++ CRAFT);
                     ELog "Last item not found. idk what to do. logging out.";
                     ELogout; EStop] /\
  (now w_init - 0 < 1000 * 1800 ->
   main_while blind_host 15 sapphire_ring 12 0 1800 1 CRAFT w_init = (Stopped, snd r)).
Proof.
  apply (missing_slot_is_fatal blind_host 15 sapphire_ring 12 0 1800 CRAFT 0 w_init).
  reflexivity.
Defined.

(** C2 at a client in which the furnace is never found. *)
Lemma fatal_handler_ends_the_run_witness :
  branches blind_host 15 sapphire_ring PRE_CRAFT (Some 2357) w_init =
  (Stopped,
   snd (__logout blind_host "Furnace not found."
          (snd (__click_on_furnace blind_host 15 w_init)))).
Proof.
  apply (proj1 (proj2 (proj2 (fatal_handler_ends_the_run blind_host ring_options 15)))).
  - reflexivity.
  - vm_compute. reflexivity.
Defined.

(** C3 at the scenario of the specification: thirty minutes, the
    two-material recipe, nothing going wrong. *)
Lemma budget_elapsed_shutdown_witness :
  let w1 := snd (main_loop_body ring_host ring_options 400 w_init) in
  let w2 := snd (main_loop ring_host ring_options 400 w_init) in
  fst (main_loop ring_host ring_options 400 w_init) = Stopped /\
  1000 * (running_time ring_options * 60) <= now w1 - now w_init /\
  exists evs,
    trace w1 = trace w_init ++ evs /\ Forall calm evs /\
    trace w2 = trace w_init ++ evs ++ [EProgress 1; ELog "Finished."; ELogout; EStop] /\
    count is_logout (evs ++ [EProgress 1; ELog "Finished."; ELogout; EStop]) = 1%nat /\
    count is_stop (evs ++ [EProgress 1; ELog "Finished."; ELogout; EStop]) = 1%nat.
Proof.
  apply (budget_elapsed_shutdown ring_host ring_options 400 w_init PRE_CRAFT).
  vm_compute. reflexivity.
Defined.

(** C10 at the same run. *)
Lemma phase_is_one_of_four_witness :
  valid_phase PRE_CRAFT /\
  (fst (main_loop_body ring_host ring_options 400 w_init) = Ret PRE_CRAFT).
Proof.
  split.
  - apply (proj1 (phase_is_one_of_four ring_host ring_options 400)).
  - vm_compute. reflexivity.
Defined.

(** C6 at the two recipes of the catalog. *)
Lemma designated_slot_index_formula_witness :
  last_craft_item_index true gold_amulet = 26 /\
  last_craft_item_index true sapphire_ring = 12.
Proof.
  split.
  - apply (proj1 (proj2 (proj2 (proj2 (designated_slot_index_formula osrs_ids true gold_amulet))))).
    reflexivity.
  - apply (proj2 (proj2 (proj2 (proj2 (designated_slot_index_formula osrs_ids true sapphire_ring))))).
    + discriminate.
    + reflexivity.
Defined.


(** That pass takes eleven seconds -- ten of sleep in the branch, then the
    flat second -- of a budget of 1800: it reports 11/1800. *)
Example post_craft_pass_reports_elapsed_over_budget :
  let r := iteration ring_host 15 sapphire_ring 12 0 1800 POST_CRAFT w_init in
  fst r = Ret BANK /\
  exists p,
    trace (snd r) =
      [ELog "State: post-craft"; ELog "Last item id: 1637";
       EMoveTo (ObjRegion (Obj 0)); EClick; ELog "Moving to bank...";
       ESleep 10; ESleep 1; EProgress p] /\
    Qeq p (Qmake 11 1800).
Proof.
  cbv zeta. split; [vm_compute; reflexivity|].
  eexists. split; [vm_compute; reflexivity|]. vm_compute. reflexivity.
Qed.


(** C1 as stated fails: with the one-material recipe the designated slot
    is 26, and the bank branch does not begin by clicking slot 26. *)
Lemma deposit_click_is_not_the_designated_slot :
  last_craft_item_index true gold_amulet = 26 /\
  ~ deposit_clicks_slot amulet_host (last_craft_item_index true gold_amulet)
      15 gold_amulet (Some 1673) w_init.
Proof.
  split; [reflexivity|]. intros [rest H]. vm_compute in H. discriminate H.
Qed.


(** The thirty-minute run always ends by [stop()], given fuel for twice the
    budget in seconds and one pass more. *)
Lemma main_loop_always_stops_witness :
  fst (main_loop ring_host ring_options 3601 w_init) = Stopped.
Proof.
  apply (main_loop_always_stops ring_host ring_options 3601 sapphire_ring w_init).
  - reflexivity.
  - discriminate.
  - unfold DEFAULT_RETRY_SECONDS. lia.
  - cbn. lia.
Defined.

(** ** Options, edges and timing at concrete inputs *)

Example save_ring_form :
  let r := save_options osrs_ids ring_host ring_form __init__ w_init in
  saved_outcome r = Ret tt /\
  saved_bot r = mkBotState (VInt 30) (Some sapphire_ring) true /\
  trace (saved_world r) =
    [ELog "Running time: 30 minutes.";
     ELog "Crafting item: Item(name='Sapphire ring', id=1637).";
     ELog "Options set successfully."].
Proof. vm_compute. repeat split. Qed.

Example save_without_recipe :
  let r := save_options osrs_ids ring_host [("running_time", VInt 60)] __init__ w_init in
  saved_outcome r = Raised AttributeError /\
  saved_bot r = mkBotState (VInt 60) None false.
Proof. vm_compute. repeat split. Qed.

(** The misspelt key ends the call; the running time before it is stored,
    the recipe after it is not. *)
Lemma save_options_unknown_key_witness :
  let r := save_options osrs_ids ring_host typo_form __init__ w_init in
  saved_outcome r = Ret tt /\
  st_options_set (saved_bot r) = false /\
  saved_stdout r = [DEVELOPER_HINT] /\
  exists before k v rest,
    typo_form = before ++ (k, v) :: rest /\
    ~ known_key k /\ Forall known_key (map fst before) /\
    trace (saved_world r) = trace w_init ++ [ELog ("Unknown option: " +++ k)] /\
    st_running_time (saved_bot r) =
      st_running_time (fst (save_options_loop osrs_ids before __init__)) /\
    st_craft_item (saved_bot r) =
      st_craft_item (fst (save_options_loop osrs_ids before __init__)).
Proof.
  apply (save_options_unknown_key osrs_ids ring_host typo_form __init__ w_init "craft_itm").
  - right. left. reflexivity.
  - intros [E|E]; discriminate E.
Defined.

Lemma save_options_known_keys_witness :
  let r := save_options osrs_ids ring_host ring_form __init__ w_init in
  st_running_time (saved_bot r) = VInt 30 /\
  st_craft_item (saved_bot r) = Some sapphire_ring /\
  saved_stdout r = [] /\
  saved_outcome r = Ret tt /\
  st_options_set (saved_bot r) = true /\
  trace (saved_world r) =
    trace w_init ++ [ELog ("Running time: " +++ str_of_value (VInt 30) +++ " minutes.");
                     ELog ("Crafting item: " +++ repr_Item (item sapphire_ring) +++ ".");
                     ELog "Options set successfully."].
Proof.
  apply (save_options_known_keys osrs_ids ring_host ring_form __init__ w_init).
  - apply Forall_cons; [left; reflexivity|].
    apply Forall_cons; [right; reflexivity|]. apply Forall_nil.
  - apply NoDup_cons; [intros [E|[]]; discriminate E|].
    apply NoDup_cons; [intros []|]. apply NoDup_nil.
Defined.

Lemma options_form_to_stop_witness :
  let r := save_options osrs_ids ring_host ring_form __init__ w_init in
  saved_outcome r = Ret tt /\
  st_options_set (saved_bot r) = true /\
  (exists n ci,
     st_running_time (saved_bot r) = VInt n /\ 30 <= n <= 720 /\
     st_craft_item (saved_bot r) = Some ci /\ materials ci <> []) /\
  fst (main_loop ring_host ring_options (Z.to_nat 86401) (saved_world r)) = Stopped.
Proof.
  pose proof (options_form_to_stop osrs_ids ring_host ring_options ring_form w_init
           (saved_world (save_options osrs_ids ring_host ring_form __init__ w_init))
           (Z.to_nat 86401)) as H.
  cbv zeta in *.
  destruct H as (H1 & H2 & H3 & H4).
  - intros e [<-|[<-|[]]].
    + eexists. split; [left; reflexivity|]. cbn. split; [reflexivity|].
      exists 30. split; [reflexivity | lia].
    + eexists. split; [right; left; reflexivity|]. cbn. split; [reflexivity|].
      exists SAPPHIRE_RING_NAME. split; [reflexivity | right; left; reflexivity].
  - right. left. reflexivity.
  - split; [exact H1|]. split; [exact H2|]. split; [exact H3|].
    apply H4; [reflexivity | lia].
Defined.

Lemma main_loop_unconfigured_raises_witness :
  let r := main_loop ring_host no_options 15 w_init in
  fst r = Raised AttributeError /\
  trace (snd r) =
    trace w_init ++ [ELog "Selecting inventory..."; EMoveTo (CpTab 3); EClick] /\
  calls (snd r) = (3 + calls w_init)%nat.
Proof.
  apply (main_loop_unconfigured_raises ring_host no_options 15 w_init).
  left. reflexivity.
Defined.

Lemma main_loop_without_budget_witness :
  let r := main_loop ring_host no_time_options 0 w_init in
  fst r = Stopped /\
  trace (snd r) =
    trace w_init ++ [ELog "Selecting inventory..."; EMoveTo (CpTab 3); EClick;
                     ELog ("Max craftable: " +++ str_of_Z (max_craftable true sapphire_ring));
                     EProgress 1; ELog "Finished."; ELogout; EStop] /\
  calls (snd r) = (8 + calls w_init)%nat.
Proof.
  apply (main_loop_without_budget ring_host no_time_options 0 sapphire_ring w_init).
  - reflexivity.
  - discriminate.
  - cbn. lia.
Defined.

Lemma primitives_end_within_their_timeouts_witness :
  now (snd (__click_on_furnace blind_host 15 w_init)) - now w_init <= 30000 /\
  now (snd (__click_on_bank blind_host 15 w_init)) - now w_init <= 30000 /\
  now (snd (__begin_crafting blind_host 15 (item sapphire_ring) w_init)) - now w_init
    <= 15000.
Proof.
  apply (primitives_end_within_their_timeouts blind_host).
  intros k. reflexivity.
Defined.

Lemma run_lasts_budget_and_less_than_a_pass_witness :
  let budget := 1000 * (running_time ring_options * 60) in
  now (snd (main_loop ring_host ring_options 400 w_init)) - now w_init
    < budget + pass_bound sapphire_ring /\
  (forall state,
     fst (main_loop_body ring_host ring_options 400 w_init) = Ret state ->
     budget <= now (snd (main_loop ring_host ring_options 400 w_init)) - now w_init) /\
  ((List.length (materials sapphire_ring) <= 2)%nat -> pass_bound sapphire_ring = 46000).
Proof.
  apply (run_lasts_budget_and_less_than_a_pass ring_host ring_options).
  - intros k. reflexivity.
  - reflexivity.
  - discriminate.
  - cbn. lia.
Defined.


Lemma batch_fits_inventory_witness :
  let slots := available_slots true in
  let per_craft := Z.of_nat (List.length (materials sapphire_ring)) in
  max_craftable true sapphire_ring * per_craft <= slots
    < (max_craftable true sapphire_ring + 1) * per_craft /\
  -1 <= last_craft_item_index true sapphire_ring < slots /\
  (0 <= last_craft_item_index true sapphire_ring <-> per_craft <= slots).
Proof.
  apply (batch_fits_inventory true sapphire_ring). discriminate.
Defined.


Lemma furnace_and_bank_search_trace_witness :
  searches_then_confirms (__click_on_furnace blind_host 15)
    "Furnace obj not found... Trying again." "Could not find furnace." w_init /\
  searches_then_confirms (__click_on_bank blind_host 15)
    "Bank obj not found... Trying again." "Could not find bank." w_init.
Proof.
  apply (furnace_and_bank_search_trace blind_host 15 w_init).
  unfold DEFAULT_RETRY_SECONDS. lia.
Defined.

(** In the client that finds nothing, clickFurnace gives up after exactly
    its fifteen looks. *)
Example blind_furnace_search :
  let r := __click_on_furnace blind_host 15 w_init in
  fst r = Ret false /\ now (snd r) = 15000 /\
  trace (snd r) =
    rounds [ELog "Furnace obj not found... Trying again."; EMoveCamera 90; ESleep 1] 15.
Proof. vm_compute. repeat split. Qed.
